(** * createTransaction (js/src/wallet/createTransaction.ts)

    A shallow embedding of [createTransaction], the function that validates a
    payment request against a ledger snapshot and builds the unsigned
    transaction (native SOL transfer or SPL token transfer, optional reference
    keys, optional memo), followed by the properties its specification states.

    The function is asynchronous: every [await] is an interaction with the
    outside (an account lookup, an associated-token-address derivation).  It is
    modelled in a small monad that threads the trace of those interactions and
    stops at the first exception.

    The packages the function imports (bignumber.js, bn.js, @solana/web3.js,
    @solana/spl-token) are modelled by the observable behaviour of the calls
    [createTransaction] makes, the errors they raise included. *)

From Stdlib Require Import ZArith NArith List String Ascii Bool Lia.
From Stdlib.Strings Require Import Byte.
From Stdlib Require Import QArith Qround.
Import ListNotations.

Local Open Scope Z_scope.

(** ** Errors *)

Inductive CreateTransactionError : Set :=
| PAYER_NOT_FOUND
| RECIPIENT_NOT_FOUND
| TOKEN_NOT_FOUND
| TOKEN_INVALID_PROGRAM
| TOKEN_INVALID_LENGTH
| TOKEN_MINT_NOT_INITIALIZED
| AMOUNT_INVALID_DECIMALS
| PAYER_ATA_NOT_FOUND
| RECIPIENT_ATA_NOT_FOUND
| PAYER_INSUFFICIENT_FUNDS
| PAYER_ATA_INSUFFICIENT_FUNDS.

(** What a [throw] carries: [new Error(kind)] raised by [createTransaction]
    itself, or an error raised inside a package it calls: a failed assertion
    (bn.js, [u64]), the refusal of an owner that is not on the curve
    (@solana/spl-token), a buffer read or write out of range, the read of a
    property of [undefined]. *)
Inductive Exception : Set :=
| Error (message : CreateTransactionError)
| AssertionError (message : string)
| OwnerCannotSign (address : string)
| RangeError
| TypeError.

(** ** JavaScript numbers *)

Module Number.

(** The values of type number that an integer can convert to: an
    integer-valued double, or an infinity. *)
Inductive t : Set :=
| Num (value : Z)
| PosInfinity
| NegInfinity.

(** The double nearest to the natural number [n], ties to the even
    significand (53 significant bits), before the overflow test. *)
Definition roundToSignificand (n : Z) : Z :=
  if n <? 2 ^ 53 then n
  else
    let k := Z.log2 n - 52 in
    let q := n / 2 ^ k in
    let r := n mod 2 ^ k in
    let half := 2 ^ (k - 1) in
    let q' := if r <? half then q
              else if half <? r then q + 1
              else if Z.even q then q else q + 1 in
    q' * 2 ^ k.

(** The number value of the integer [v] (IEEE 754 binary64, round to nearest,
    ties to even; magnitudes that round to [2^1024] overflow). *)
Definition ofInteger (v : Z) : t :=
  let a := roundToSignificand (Z.abs v) in
  if 2 ^ 1024 <=? a then (if v <? 0 then NegInfinity else PosInfinity)
  else Num (Z.sgn v * a).

(** [a > b] where [b] is an integer-valued number. *)
Definition gt (a : t) (b : Z) : bool :=
  match a with
  | Num v => b <? v
  | PosInfinity => true
  | NegInfinity => false
  end.

(** Whether a number can be written as a signed 64-bit integer (the high word
    [floor(n / 2^32)] fits 32 signed bits). *)
Definition isInt64 (n : t) : bool :=
  match n with
  | Num v => (- 2 ^ 63 <=? v) && (v <? 2 ^ 63)
  | PosInfinity | NegInfinity => false
  end.

End Number.

(** ** bignumber.js: arbitrary-precision decimals *)

Module BigNumber.

(** A finite decimal: the value [unscaled / 10^scale].  bignumber.js keeps a
    sign, a coefficient and a decimal exponent; every finite value it can hold
    is of this form, and none of the operations below depends on the chosen
    representative.  ([NaN] and the infinities are not decimal amounts and are
    left out.) *)
Record t : Set := mk { unscaled : Z; scale : nat }.

(** [new BigNumber(n)] for an integer [n]. *)
Definition ofInteger (n : Z) : t := mk n 0.

(** [10^n], as the positive denominator of a decimal of scale [n]. *)
Fixpoint pow10 (n : nat) : positive :=
  match n with
  | O => 1%positive
  | S n' => (10 * pow10 n')%positive
  end.

(** The rational number a [BigNumber.t] denotes. *)
Definition toQ (x : t) : Q := Qmake (unscaled x) (pow10 (scale x)).

(** [x.times(y)]: exact multiplication. *)
Definition times (x y : t) : t :=
  mk (unscaled x * unscaled y) (scale x + scale y).

(** [x.pow(n)] for an integer [n >= 0]: exact ([POW_PRECISION] is 0). *)
Definition pow (x : t) (n : Z) : t :=
  mk (unscaled x ^ n) (scale x * Z.to_nat n).

(** Number of digits left after the decimal point once the trailing zeros of
    the [k] digits considered are dropped. *)
Fixpoint significantPlaces (k : nat) (m : Z) : nat :=
  match k with
  | O => O
  | S k' => if m mod 10 =? 0 then significantPlaces k' (m / 10) else k
  end.

(** [x.decimalPlaces()]: the number of fractional digits of the value. *)
Definition decimalPlaces (x : t) : Z :=
  Z.of_nat (significantPlaces (scale x) (unscaled x)).

(** [x.integerValue(BigNumber.ROUND_FLOOR)]: the value rounded towards minus
    infinity.  The result is an integer-valued BigNumber; it is identified with
    the integer it holds. *)
Definition integerValue_ROUND_FLOOR (x : t) : Z :=
  unscaled x / Z.pos (pow10 (scale x)).

(** What [String(x)] looks like for an integer-valued [x]: normal notation
    (an optional minus sign and the decimal digits of the value), or
    exponential notation such as [1e+21]. *)
Inductive Literal : Set :=
| Normal (value : Z)
| Exponential (value : Z).

(** [x.toString()] for an integer-valued [x]: with the default configuration
    exponential notation is used as soon as the decimal exponent reaches 21,
    that is from [10^21] on in magnitude. *)
Definition toString (v : Z) : Literal :=
  if Z.abs v <? 10 ^ 21 then Normal v else Exponential v.

(** [x.toNumber()] for an integer-valued [x]. *)
Definition toNumber (v : Z) : Number.t := Number.ofInteger v.

End BigNumber.


(** ** Buffers and strings *)

Definition Buffer : Set := list byte.

(** A JavaScript string: its UTF-16 code units. *)
Definition JSString : Set := list N.

Definition byteOf (n : N) : byte :=
  match Byte.of_N n with
  | Some b => b
  | None => x00
  end.

(** [Buffer.from(s, 'utf8')]: surrogate pairs are combined into one code
    point, a lone surrogate is replaced by U+FFFD. *)
Fixpoint utf8 (s : JSString) : Buffer :=
  let replacement := [xef; xbf; xbd] in
  let three (u : N) :=
    [byteOf (224 + u / 4096); byteOf (128 + (u / 64) mod 64);
     byteOf (128 + u mod 64)]%N in
  match s with
  | [] => []
  | u :: rest =>
    if (u <? 128)%N then byteOf u :: utf8 rest
    else if (u <? 2048)%N then
      byteOf (192 + u / 64)%N :: byteOf (128 + u mod 64)%N :: utf8 rest
    else if ((55296 <=? u) && (u <? 56320))%N then
      match rest with
      | l :: rest' =>
        if ((56320 <=? l) && (l <? 57344))%N then
          let c := (65536 + (u - 55296) * 1024 + (l - 56320))%N in
          [byteOf (240 + c / 262144); byteOf (128 + (c / 4096) mod 64);
           byteOf (128 + (c / 64) mod 64); byteOf (128 + c mod 64)]%N
          ++ utf8 rest'
        else replacement ++ utf8 rest
      | [] => replacement
      end
    else if ((56320 <=? u) && (u <? 57344))%N then replacement ++ utf8 rest
    else three u ++ utf8 rest
  end.

(** ** bn.js and the [u64] class of @solana/spl-token *)

Module u64.

(** [new u64(s)] for the string [s] in base 10: a leading minus sign and
    decimal digits are read exactly (no range check is made at construction);
    any other character fails bn.js's assertion. *)
Definition ofString (s : BigNumber.Literal) : Exception + Z :=
  match s with
  | BigNumber.Normal v => inr v
  | BigNumber.Exponential _ => inl (AssertionError "Invalid character")
  end.

(** bn.js's [length]: the number of 26-bit words of the magnitude. *)
Definition wordLength (v : Z) : Z := Z.log2 (Z.abs v) / 26 + 1.

(** [a.ucmp(num)] for a [num] that is a Buffer and not a BN: the word count of
    [a] is compared with [num.length], the byte count of the buffer; when they
    are equal the words are compared, and [num.words] is [undefined]. *)
Definition ucmp (a : Z) (num : Buffer) : Exception + Z :=
  let numLength := Z.of_nat (List.length num) in
  if numLength <? wordLength a then inr 1
  else if wordLength a <? numLength then inr (-1)
  else inl TypeError.

(** [a.cmp(num)] for a [num] that is a Buffer, as at line 113.
    [num.negative] is [undefined]: for a non-negative [a] the test
    [this.negative === 0 && num.negative !== 0] holds and the result is 1;
    for a negative [a] the result is that of [ucmp] with its sign flipped. *)
Definition cmp (a : Z) (num : Buffer) : Exception + Z :=
  if 0 <=? a then inr 1
  else
    match ucmp a num with
    | inr res => inr (- res)
    | inl e => inl e
    end.

(** [a.gt(num)]: [a.cmp(num) === 1]. *)
Definition gt (a : Z) (num : Buffer) : Exception + bool :=
  match cmp a num with
  | inr c => inr (c =? 1)
  | inl e => inl e
  end.

(** [a.toBuffer()]: the magnitude on 8 bytes; more bytes fail the assertion. *)
Definition fitsBuffer (a : Z) : bool := Z.abs a <? 2 ^ 64.

End u64.

(** ** @solana/web3.js *)

(** A public key, written in base 58 as the source writes them.  Two keys are
    equal when their bytes are, that is when their base-58 forms are. *)
Definition PublicKey : Set := string.

Definition PublicKey_equals (a b : PublicKey) : bool := String.eqb a b.

Definition LAMPORTS_PER_SOL : Z := 1000000000.

(** The state of an account as [getAccountInfo] returns it. *)
Record AccountInfo : Set := {
  owner : PublicKey;
  data : Buffer;
  lamports : Z;
  executable : bool
}.

(** A connection, as far as [createTransaction] uses it: the ledger snapshot
    [getAccountInfo] reads, [None] for an account that does not exist. *)
Definition Connection : Set := PublicKey -> option AccountInfo.

Record AccountMeta : Set := {
  pubkey : PublicKey;
  isSigner : bool;
  isWritable : bool
}.

(** The data of an instruction.  The two transfer builders encode their
    arguments inside their packages; once the encoding has succeeded, the data
    is kept as the arguments that were encoded.  The memo instruction's data
    is the buffer the source builds. *)
Inductive InstructionData : Set :=
| SystemTransferData (lamports : Number.t)
| TransferCheckedData (amount : Z) (decimals : Z)
| Bytes (buffer : Buffer).

Record TransactionInstruction : Set := {
  keys : list AccountMeta;
  programId : PublicKey;
  ixdata : InstructionData
}.

(** A transaction before signing: its instructions, in order. *)
Record Transaction : Set := { instructions : list TransactionInstruction }.

Definition Transaction_new : Transaction := {| instructions := [] |}.

(** [transaction.add(instruction)] *)
Definition Transaction_add (t : Transaction) (i : TransactionInstruction) : Transaction :=
  {| instructions := instructions t ++ [i] |}.

(** [SystemProgram.programId] *)
Definition SystemProgram_programId : PublicKey :=
  "11111111111111111111111111111111"%string.

(** The instruction [SystemProgram.transfer] returns: the payer signs and is
    writable, the recipient is writable, the data holds the lamports. *)
Definition SystemProgram_transferInstruction
    (fromPubkey toPubkey : PublicKey) (lamports : Number.t)
  : TransactionInstruction :=
  {| keys := [ {| pubkey := fromPubkey; isSigner := true; isWritable := true |};
               {| pubkey := toPubkey; isSigner := false; isWritable := true |} ];
     programId := SystemProgram_programId;
     ixdata := SystemTransferData lamports |}.

(** [SystemProgram.transfer({ fromPubkey, toPubkey, lamports })]: the data is
    encoded at once, the lamports as a signed 64-bit integer; a number outside
    that range raises a RangeError. *)
Definition SystemProgram_transfer (fromPubkey toPubkey : PublicKey)
    (lamports : Number.t) : Exception + TransactionInstruction :=
  if Number.isInt64 lamports
  then inr (SystemProgram_transferInstruction fromPubkey toPubkey lamports)
  else inl RangeError.

(** ** @solana/spl-token *)

Definition TOKEN_PROGRAM_ID : PublicKey :=
  "TokenkegQfeZyiNwAJbNbGKPFXCWuBvf9Ss623VQ5DA"%string.

Definition ASSOCIATED_TOKEN_PROGRAM_ID : PublicKey :=
  "ATokenGPvbdGVxr1b2hvZbsiqW5xWH25efTNsLJA8knL"%string.

(** The fields of a decoded mint record that the source reads. *)
Record Mint : Set := { mint_decimals : Z; mint_isInitialized : Z }.

(** [MintLayout.span]: the size of a mint record. *)
Definition MintLayout_span : Z := 82.

(** [MintLayout.decode]: [decimals] is the byte at offset 44 and
    [isInitialized] the byte at offset 45 (after the 4-byte authority option,
    the 32-byte authority and the 8-byte supply). *)
Definition MintLayout_decode (b : Buffer) : Mint :=
  {| mint_decimals := Z.of_N (Byte.to_N (nth 44 b x00));
     mint_isInitialized := Z.of_N (Byte.to_N (nth 45 b x00)) |}.

(** [AccountLayout.span]: the size of a token account record. *)
Definition AccountLayout_span : Z := 165.

(** [AccountLayout.decode(b).amount].  The layout reads its fields in order:
    the keys and the 64-bit fields are slices of the buffer, the integer
    fields are read with a bounds check, the last of them on the four bytes
    at offset 129, so that data shorter than 133 bytes raises a RangeError.
    The [amount] is the slice of 8 bytes at offset 64: a Buffer, which the
    source takes for a BN.  The source makes no check of the size or of the
    owner of the account. *)
Definition AccountLayout_decode_amount (b : Buffer) : Exception + Buffer :=
  if Z.of_nat (List.length b) <? 133 then inl RangeError
  else inr (firstn 8 (skipn 64 b)).

(** The instruction [Token.createTransferCheckedInstruction] returns with no
    multi-signers: source and destination are writable, the owner signs. *)
Definition Token_transferCheckedInstruction
    (program source mint destination owner_ : PublicKey) (amount decimals : Z)
  : TransactionInstruction :=
  {| keys := [ {| pubkey := source; isSigner := false; isWritable := true |};
               {| pubkey := mint; isSigner := false; isWritable := false |};
               {| pubkey := destination; isSigner := false; isWritable := true |};
               {| pubkey := owner_; isSigner := true; isWritable := false |} ];
     programId := program;
     ixdata := TransferCheckedData amount decimals |}.

(** [Token.createTransferCheckedInstruction(programId, source, mint,
    destination, owner, multiSigners = [], amount, decimals)]: the data is
    encoded at once, the amount through [toBuffer]. *)
Definition Token_createTransferCheckedInstruction
    (program source mint destination owner_ : PublicKey) (amount decimals : Z)
  : Exception + TransactionInstruction :=
  if u64.fitsBuffer amount
  then inr (Token_transferCheckedInstruction program source mint destination
              owner_ amount decimals)
  else inl (AssertionError "u64 too large").

(** ** Asynchronous computations *)

(** How a promise settles. *)
Inductive Settled (A : Type) : Type :=
| Fulfilled (value : A)
| Rejected (reason : Exception).

Arguments Fulfilled {A} value.
Arguments Rejected {A} reason.

(** The interactions [createTransaction] awaits. *)
Inductive Event : Set :=
| GetAccountInfo (address : PublicKey)
| GetAssociatedTokenAddress (mint owner_ : PublicKey).

(** A computation that appends the interactions it performs to the trace and
    settles. *)
Definition Async (A : Type) : Type := list Event -> Settled A * list Event.

Definition ret {A : Type} (a : A) : Async A := fun tr => (Fulfilled a, tr).

Definition throw {A : Type} (e : Exception) : Async A := fun tr => (Rejected e, tr).

Definition bind {A B : Type} (m : Async A) (k : A -> Async B) : Async B :=
  fun tr =>
    match m tr with
    | (Fulfilled a, tr') => k a tr'
    | (Rejected e, tr') => (Rejected e, tr')
    end.

Declare Scope async_scope.
Delimit Scope async_scope with async.

Notation "x <- m ;; k" := (bind m (fun x => k))
  (at level 100, m at next level, right associativity) : async_scope.
Notation "m ;; k" := (bind m (fun _ => k))
  (at level 100, right associativity) : async_scope.

(** [if (cond) throw new Error(kind)] *)
Definition throwIf (cond : bool) (kind : CreateTransactionError) : Async unit :=
  if cond then throw (Error kind) else ret tt.

(** [if (!x) throw new Error(kind)] for an [x] that may be null. *)
Definition orThrow {A : Type} (x : option A) (kind : CreateTransactionError) : Async A :=
  match x with
  | Some a => ret a
  | None => throw (Error kind)
  end.

(** A package call that may raise. *)
Definition lift {A : Type} (r : Exception + A) : Async A :=
  match r with
  | inr a => ret a
  | inl e => throw e
  end.

(** [await connection.getAccountInfo(address)] *)
Definition getAccountInfo (connection : Connection) (address : PublicKey)
  : Async (option AccountInfo) :=
  fun tr => (Fulfilled (connection address), tr ++ [GetAccountInfo address]).

(** Runs a computation from the empty trace. *)
Definition run {A : Type} (m : Async A) : Settled A * list Event := m [].

(** ** createTransaction *)

Definition MEMO_PROGRAM_ID : PublicKey :=
  "MemoSq4gqABAXKb96qnH8TysNcWxMyWCqXgDLGmfcHr"%string.

Definition SOL_DECIMALS : Z := 9.

Definition TEN : BigNumber.t := BigNumber.ofInteger 10.

(** The options object: each field may be absent. *)
Record Options : Set := {
  token : option PublicKey;
  references : option (list PublicKey);
  memo : option JSString
}.

(** Line 67: the decimal amount as integer lamports. *)
Definition toLamports (amount : BigNumber.t) : Z :=
  BigNumber.integerValue_ROUND_FLOOR
    (BigNumber.times amount (BigNumber.ofInteger LAMPORTS_PER_SOL)).

(** Line 98: the decimal amount as integer tokens of a mint. *)
Definition toTokens (amount : BigNumber.t) (decimals : Z) : Z :=
  BigNumber.integerValue_ROUND_FLOOR
    (BigNumber.times amount (BigNumber.pow TEN decimals)).

(** Line 140: the account entry pushed for a reference. *)
Definition referenceKey (pubkey : PublicKey) : AccountMeta :=
  {| pubkey := pubkey; isSigner := false; isWritable := false |}.

(** Lines 139-141: [references?.length] is falsy for an absent and for an
    empty array; otherwise the keys are pushed onto the instruction. *)
Definition addReferences (references : option (list PublicKey))
    (instruction : TransactionInstruction) : TransactionInstruction :=
  match references with
  | Some ((_ :: _) as references) =>
    {| keys := keys instruction ++ map referenceKey references;
       programId := programId instruction;
       ixdata := ixdata instruction |}
  | _ => instruction
  end.

(** Lines 149-153: the memo instruction. *)
Definition memoInstruction (memo : JSString) : TransactionInstruction :=
  {| keys := []; programId := MEMO_PROGRAM_ID; ixdata := Bytes (utf8 memo) |}.

Section CreateTransaction.

(** [PublicKey.findProgramAddress] on the seeds (owner, programId, mint) under
    the associated token program: the derived address, a function of the four
    keys. *)
Variable findAssociatedTokenAddress :
  PublicKey -> PublicKey -> PublicKey -> PublicKey -> PublicKey.

(** [PublicKey.isOnCurve]: whether a key is a point of the curve, that is,
    whether it can sign. *)
Variable isOnCurve : PublicKey -> bool.

(** [await Token.getAssociatedTokenAddress(associatedProgramId, programId,
    mint, owner)]: with its fifth argument left out, an owner that is not on
    the curve is refused; otherwise the address is derived. *)
Definition getAssociatedTokenAddress (associatedProgramId program mint owner_ : PublicKey)
  : Async PublicKey :=
  fun tr =>
    (if isOnCurve owner_
     then Fulfilled (findAssociatedTokenAddress associatedProgramId program mint owner_)
     else Rejected (OwnerCannotSign owner_),
     tr ++ [GetAssociatedTokenAddress mint owner_]).

Local Open Scope async_scope.

(** Lines 62-79: the native branch. *)
Definition nativeTransfer (payer recipient : PublicKey) (payerInfo : AccountInfo)
    (amount : BigNumber.t) : Async TransactionInstruction :=
  throwIf (SOL_DECIMALS <? BigNumber.decimalPlaces amount) AMOUNT_INVALID_DECIMALS ;;
  let amount := toLamports amount in
  let lamports_ := BigNumber.toNumber amount in
  throwIf (Number.gt lamports_ (lamports payerInfo)) PAYER_INSUFFICIENT_FUNDS ;;
  lift (SystemProgram_transfer payer recipient lamports_).

(** Lines 81-136: the token branch. *)
Definition tokenTransfer (connection : Connection) (payer recipient token : PublicKey)
    (amount : BigNumber.t) : Async TransactionInstruction :=
  tokenInfo <- getAccountInfo connection token ;;
  tokenInfo <- orThrow tokenInfo TOKEN_NOT_FOUND ;;
  throwIf (negb (PublicKey_equals (owner tokenInfo) TOKEN_PROGRAM_ID))
    TOKEN_INVALID_PROGRAM ;;
  throwIf (negb (Z.of_nat (List.length (data tokenInfo)) =? MintLayout_span))
    TOKEN_INVALID_LENGTH ;;
  let mint := MintLayout_decode (data tokenInfo) in
  throwIf (mint_isInitialized mint =? 0) TOKEN_MINT_NOT_INITIALIZED ;;
  let decimals := mint_decimals mint in
  throwIf (decimals <? BigNumber.decimalPlaces amount) AMOUNT_INVALID_DECIMALS ;;
  let amount := toTokens amount decimals in
  payerATA <- getAssociatedTokenAddress
                ASSOCIATED_TOKEN_PROGRAM_ID TOKEN_PROGRAM_ID token payer ;;
  payerATAInfo <- getAccountInfo connection payerATA ;;
  payerATAInfo <- orThrow payerATAInfo PAYER_ATA_NOT_FOUND ;;
  balance <- lift (AccountLayout_decode_amount (data payerATAInfo)) ;;
  tokens <- lift (u64.ofString (BigNumber.toString amount)) ;;
  exceeds <- lift (u64.gt tokens balance) ;;
  throwIf exceeds PAYER_ATA_INSUFFICIENT_FUNDS ;;
  recipientATA <- getAssociatedTokenAddress
                    ASSOCIATED_TOKEN_PROGRAM_ID TOKEN_PROGRAM_ID token recipient ;;
  recipientATAInfo <- getAccountInfo connection recipientATA ;;
  _ <- orThrow recipientATAInfo RECIPIENT_ATA_NOT_FOUND ;;
  lift (Token_createTransferCheckedInstruction
          TOKEN_PROGRAM_ID payerATA token recipientATA payer tokens decimals).

Definition createTransaction (connection : Connection) (payer recipient : PublicKey)
    (amount : BigNumber.t) (options : Options) : Async Transaction :=
  payerInfo <- getAccountInfo connection payer ;;
  payerInfo <- orThrow payerInfo PAYER_NOT_FOUND ;;
  recipientInfo <- getAccountInfo connection recipient ;;
  _ <- orThrow recipientInfo RECIPIENT_NOT_FOUND ;;
  instruction <-
    match token options with
    | None => nativeTransfer payer recipient payerInfo amount
    | Some token => tokenTransfer connection payer recipient token amount
    end ;;
  let instruction := addReferences (references options) instruction in
  let transaction := Transaction_add Transaction_new instruction in
  let transaction :=
    match memo options with
    | Some memo => Transaction_add transaction (memoInstruction memo)
    | None => transaction
    end in
  ret transaction.

End CreateTransaction.

(** ** Ledger snapshots used to run the model *)

Module Fixtures.

Local Open Scope string_scope.

(** A stand-in for the address derivation: injective in (mint, owner). *)
Definition derive (_ _ mint owner_ : PublicKey) : PublicKey :=
  "ata/" ++ mint ++ "/" ++ owner_.

(** Every key is on the curve, but the one called "vault". *)
Definition onCurve (key : PublicKey) : bool := negb (key =? "vault").

Definition wallet (balance : Z) : AccountInfo :=
  {| owner := SystemProgram_programId; data := []; lamports := balance;
     executable := false |}.

(** A mint record: 82 bytes, [decimals] at offset 44, [isInitialized] at 45. *)
Definition mintAccount (decimals initialized : byte) : AccountInfo :=
  {| owner := TOKEN_PROGRAM_ID;
     data := (repeat x00 44 ++ [decimals; initialized] ++ repeat x00 36)%list;
     lamports := 1461600; executable := false |}.

(** A token account: 165 bytes, the balance in the 8 bytes at offset 64. *)
Definition tokenAccount (amount : list byte) : AccountInfo :=
  {| owner := TOKEN_PROGRAM_ID;
     data := (repeat x00 64 ++ amount ++ repeat x00 93)%list;
     lamports := 2039280; executable := false |}.

(** 10000000 = 0x989680, little-endian. *)
Definition tenMillion : list byte := [x80; x96; x98; x00; x00; x00; x00; x00].

(** Payer with [balance] lamports and an existing recipient; nothing else. *)
Definition nativeLedger (balance : Z) : Connection :=
  fun address =>
    if address =? "payer" then Some (wallet balance)
    else if address =? "recipient" then Some (wallet 0)
    else None.

(** A mint with 6 decimals, initialized. *)
Definition sixDecimals : AccountInfo := mintAccount x06 x01.

(** A ledger where the address "mint" holds [mint]; the payer holds 10000000
    base units of it; the recipient's associated token account exists when
    [recipientHasATA]. *)
Definition tokenLedger (mint : option AccountInfo) (recipientHasATA : bool)
  : Connection :=
  fun address =>
    if address =? "payer" then Some (wallet 5000)
    else if address =? "recipient" then Some (wallet 0)
    else if address =? "mint" then mint
    else if address =? "ata/mint/payer" then Some (tokenAccount tenMillion)
    else if address =? "ata/mint/recipient" then
      (if recipientHasATA then Some (tokenAccount (repeat x00 8)) else None)
    else None.

Definition plain : Options :=
  {| token := None; references := None; memo := None |}.

Definition withToken : Options :=
  {| token := Some "mint"; references := None; memo := None |}.

End Fixtures.

(** * Properties *)

(** ** Decimal arithmetic *)

Section DecimalFacts.

Import BigNumber.

Lemma pow10_spec (n : nat) : Z.pos (pow10 n) = 10 ^ Z.of_nat n.
Proof.
  induction n as [|n IH].
  - reflexivity.
  - rewrite Nat2Z.inj_succ, Z.pow_succ_r by lia.
    cbn [pow10]. rewrite Pos2Z.inj_mul, IH. reflexivity.
Qed.

Lemma significantPlaces_le (k : nat) : forall m, (significantPlaces k m <= k)%nat.
Proof.
  induction k as [|k IH]; intro m; cbn [significantPlaces].
  - apply Nat.le_refl.
  - destruct (m mod 10 =? 0).
    + apply Nat.le_trans with k; [apply IH | apply Nat.le_succ_diag_r].
    + apply Nat.le_refl.
Qed.

(** The digits [decimalPlaces] drops are zeros: the unscaled value is a
    multiple of the matching power of ten. *)
Lemma significantPlaces_divide (k : nat) :
  forall m, (10 ^ Z.of_nat (k - significantPlaces k m) | m).
Proof.
  induction k as [|k IH]; intro m; cbn [significantPlaces].
  - exists m. cbn. lia.
  - destruct (m mod 10 =? 0) eqn:E.
    + apply Z.eqb_eq in E.
      pose proof (significantPlaces_le k (m / 10)) as Hle.
      replace (S k - significantPlaces k (m / 10))%nat
        with (S (k - significantPlaces k (m / 10))) by lia.
      rewrite Nat2Z.inj_succ, Z.pow_succ_r by lia.
      destruct (IH (m / 10)) as [c Hc].
      exists c.
      pose proof (Z.div_mod m 10 ltac:(lia)) as Hm.
      rewrite E, Hc in Hm.
      remember (10 ^ Z.of_nat (k - significantPlaces k (m / 10))) as P.
      lia.
    + rewrite Nat.sub_diag. exists m. cbn. lia.
Qed.

(** An amount with at most [p] fractional digits, scaled by [10^p], is an
    integer. *)
Lemma scaled_is_integer (x : t) (p : Z) :
  0 <= p -> decimalPlaces x <= p ->
  (10 ^ Z.of_nat (scale x) | unscaled x * 10 ^ p).
Proof.
  intros Hp Hd. unfold decimalPlaces in Hd.
  set (k := scale x) in *. set (m := unscaled x) in *.
  set (d := significantPlaces k m) in *.
  pose proof (significantPlaces_le k m) as Hle. fold d in Hle.
  pose proof (significantPlaces_divide k m) as [c Hc]. fold d in Hc.
  replace (Z.of_nat k) with (Z.of_nat (k - d) + Z.of_nat d) by lia.
  rewrite Z.pow_add_r by lia.
  replace p with (Z.of_nat d + (p - Z.of_nat d)) by lia.
  rewrite Z.pow_add_r by lia.
  exists (c * 10 ^ (p - Z.of_nat d)). rewrite Hc. ring.
Qed.

Lemma times_pow_TEN (x : t) (p : Z) :
  times x (pow TEN p) = mk (unscaled x * 10 ^ p) (scale x + 0).
Proof. reflexivity. Qed.

Lemma toTokens_eq (x : t) (p : Z) :
  toTokens x p = (unscaled x * 10 ^ p) / 10 ^ Z.of_nat (scale x).
Proof.
  unfold toTokens, integerValue_ROUND_FLOOR. rewrite times_pow_TEN.
  cbn [unscaled scale]. rewrite Nat.add_0_r, pow10_spec. reflexivity.
Qed.

Lemma toLamports_eq (x : t) : toLamports x = toTokens x SOL_DECIMALS.
Proof. reflexivity. Qed.

Lemma Qfloor_scaled (x : t) (p : Z) :
  Qfloor (toQ x * inject_Z (10 ^ p)) = (unscaled x * 10 ^ p) / 10 ^ Z.of_nat (scale x).
Proof.
  unfold toQ, inject_Z, Qmult, Qfloor. cbn [Qnum Qden].
  rewrite Pos.mul_1_r, pow10_spec. reflexivity.
Qed.

End DecimalFacts.

(** ** Conversion of integers to numbers *)

Section NumberFacts.

Lemma two_pow_53 : 2 ^ 53 = 9007199254740992.
Proof. reflexivity. Qed.

(** Integers of magnitude at most [2^53] are numbers: the conversion is
    exact. *)
Lemma ofInteger_exact (v : Z) :
  Z.abs v <= 2 ^ 53 -> Number.ofInteger v = Number.Num v.
Proof.
  intro Hv. unfold Number.ofInteger.
  assert (Hr : Number.roundToSignificand (Z.abs v) = Z.abs v).
  { unfold Number.roundToSignificand.
    destruct (Z.abs v <? 2 ^ 53) eqn:E; [reflexivity|].
    apply Z.ltb_ge in E.
    replace (Z.abs v) with (2 ^ 53) by lia. reflexivity. }
  rewrite Hr.
  assert (Hbig : 2 ^ 53 < 2 ^ 1024) by (apply Z.pow_lt_mono_r; lia).
  destruct (2 ^ 1024 <=? Z.abs v) eqn:E.
  - apply Z.leb_le in E. lia.
  - f_equal. destruct v; reflexivity.
Qed.

Lemma toNumber_exact (v : Z) :
  Z.abs v <= 2 ^ 53 -> BigNumber.toNumber v = Number.Num v.
Proof. exact (ofInteger_exact v). Qed.

(** Integers below [10^21] in magnitude survive the passage through their
    decimal string. *)
Lemma u64_ofString_toString (v : Z) :
  Z.abs v < 10 ^ 21 -> u64.ofString (BigNumber.toString v) = inr v.
Proof.
  intro Hv. unfold BigNumber.toString.
  apply Z.ltb_lt in Hv. rewrite Hv. reflexivity.
Qed.

End NumberFacts.

(** ** The comparison of line 113 *)

Section BalanceCheck.

(** The decoded amount, when there is one, is a buffer of 8 bytes. *)
Lemma decode_amount_length (b balance : Buffer) :
  AccountLayout_decode_amount b = inr balance -> List.length balance = 8%nat.
Proof.
  unfold AccountLayout_decode_amount.
  destruct (Z.of_nat (List.length b) <? 133) eqn:E; [discriminate|].
  apply Z.ltb_ge in E. intro H.
  assert (Hbalance : balance = firstn 8 (skipn 64 b)) by congruence.
  rewrite Hbalance, length_firstn, length_skipn. lia.
Qed.

Lemma decode_amount_of_record (b : Buffer) :
  Z.of_nat (List.length b) = AccountLayout_span ->
  AccountLayout_decode_amount b = inr (firstn 8 (skipn 64 b)).
Proof.
  intro H. unfold AccountLayout_decode_amount. rewrite H. reflexivity.
Qed.

(** The [u64] built from the decimal string of an integer is that integer,
    and there is one only below [10^21] in magnitude. *)
Lemma ofString_inr (v tokens : Z) :
  u64.ofString (BigNumber.toString v) = inr tokens ->
  tokens = v /\ Z.abs v < 10 ^ 21.
Proof.
  unfold BigNumber.toString.
  destruct (Z.abs v <? 10 ^ 21) eqn:E; cbn [u64.ofString]; [|discriminate].
  apply Z.ltb_lt in E. intro H. injection H as <-. split; [reflexivity | exact E].
Qed.

(** The errors of the two conversions. *)
Lemma decode_amount_inl (b : Buffer) (e : Exception) :
  AccountLayout_decode_amount b = inl e -> e = RangeError.
Proof.
  unfold AccountLayout_decode_amount.
  destruct (Z.of_nat (List.length b) <? 133); congruence.
Qed.

Lemma ofString_inl (s : BigNumber.Literal) (e : Exception) :
  u64.ofString s = inl e -> e = AssertionError "Invalid character".
Proof. destruct s; cbn [u64.ofString]; congruence. Qed.

Lemma wordLength_small (v : Z) : Z.abs v < 10 ^ 21 -> u64.wordLength v <= 3.
Proof.
  intro Hv. unfold u64.wordLength.
  assert (Hlog : Z.log2 (Z.abs v) < 78).
  { destruct (Z.eq_dec (Z.abs v) 0) as [->|Hnz]; [reflexivity|].
    apply Z.log2_lt_pow2; [lia|].
    apply Z.lt_trans with (10 ^ 21); [exact Hv | reflexivity]. }
  assert (Z.log2 (Z.abs v) / 26 < 3) by (apply Z.div_lt_upper_bound; lia).
  lia.
Qed.

(** Against a buffer of 8 bytes, every [u64] that can be built compares as
    greater: the balance check of line 113 fails for every amount. *)
Lemma gt_Buffer (v : Z) (num : Buffer) :
  Z.abs v < 10 ^ 21 -> List.length num = 8%nat -> u64.gt v num = inr true.
Proof.
  intros Hv Hnum. unfold u64.gt, u64.cmp.
  destruct (0 <=? v); [reflexivity|].
  unfold u64.ucmp. rewrite Hnum. cbv zeta.
  pose proof (wordLength_small v Hv) as Hw.
  replace (Z.of_nat 8 <? u64.wordLength v) with false
    by (symmetry; apply Z.ltb_ge; lia).
  replace (u64.wordLength v <? Z.of_nat 8) with true
    by (symmetry; apply Z.ltb_lt; lia).
  reflexivity.
Qed.

End BalanceCheck.

(** ** The pipeline, check by check *)

Section Pipeline.

Variable find : PublicKey -> PublicKey -> PublicKey -> PublicKey -> PublicKey.
Variable isOnCurve : PublicKey -> bool.
Variable connection : Connection.
Variables payer recipient : PublicKey.
Variable amount : BigNumber.t.

Lemma nativeTransfer_unfold (payerInfo : AccountInfo) (tr : list Event) :
  nativeTransfer payer recipient payerInfo amount tr =
  if SOL_DECIMALS <? BigNumber.decimalPlaces amount
  then (Rejected (Error AMOUNT_INVALID_DECIMALS), tr)
  else if Number.gt (BigNumber.toNumber (toLamports amount)) (lamports payerInfo)
  then (Rejected (Error PAYER_INSUFFICIENT_FUNDS), tr)
  else if Number.isInt64 (BigNumber.toNumber (toLamports amount))
  then (Fulfilled (SystemProgram_transferInstruction payer recipient
                     (BigNumber.toNumber (toLamports amount))), tr)
  else (Rejected RangeError, tr).
Proof.
  unfold nativeTransfer, bind, throwIf, lift, throw, ret, SystemProgram_transfer.
  destruct (SOL_DECIMALS <? BigNumber.decimalPlaces amount); [reflexivity|].
  destruct (Number.gt _ _); [reflexivity|].
  destruct (Number.isInt64 _); reflexivity.
Qed.

(** The token branch as the source writes it. *)
Lemma tokenTransfer_unfold (token : PublicKey) (tr : list Event) :
  tokenTransfer find isOnCurve connection payer recipient token amount tr =
  let tr1 := tr ++ [GetAccountInfo token] in
  match connection token with
  | None => (Rejected (Error TOKEN_NOT_FOUND), tr1)
  | Some tokenInfo =>
    if negb (PublicKey_equals (owner tokenInfo) TOKEN_PROGRAM_ID)
    then (Rejected (Error TOKEN_INVALID_PROGRAM), tr1)
    else if negb (Z.of_nat (List.length (data tokenInfo)) =? MintLayout_span)
    then (Rejected (Error TOKEN_INVALID_LENGTH), tr1)
    else
      let mint := MintLayout_decode (data tokenInfo) in
      if mint_isInitialized mint =? 0
      then (Rejected (Error TOKEN_MINT_NOT_INITIALIZED), tr1)
      else if mint_decimals mint <? BigNumber.decimalPlaces amount
      then (Rejected (Error AMOUNT_INVALID_DECIMALS), tr1)
      else
        let tr2 := tr1 ++ [GetAssociatedTokenAddress token payer] in
        if isOnCurve payer then
          let payerATA :=
            find ASSOCIATED_TOKEN_PROGRAM_ID TOKEN_PROGRAM_ID token payer in
          let tr3 := tr2 ++ [GetAccountInfo payerATA] in
          match connection payerATA with
          | None => (Rejected (Error PAYER_ATA_NOT_FOUND), tr3)
          | Some payerATAInfo =>
            match AccountLayout_decode_amount (data payerATAInfo) with
            | inl e => (Rejected e, tr3)
            | inr balance =>
              match u64.ofString
                      (BigNumber.toString
                         (toTokens amount (mint_decimals mint))) with
              | inl e => (Rejected e, tr3)
              | inr tokens =>
                match u64.gt tokens balance with
                | inl e => (Rejected e, tr3)
                | inr true => (Rejected (Error PAYER_ATA_INSUFFICIENT_FUNDS), tr3)
                | inr false =>
                  let tr4 := tr3 ++ [GetAssociatedTokenAddress token recipient] in
                  if isOnCurve recipient then
                    let recipientATA :=
                      find ASSOCIATED_TOKEN_PROGRAM_ID TOKEN_PROGRAM_ID token
                        recipient in
                    let tr5 := tr4 ++ [GetAccountInfo recipientATA] in
                    match connection recipientATA with
                    | None => (Rejected (Error RECIPIENT_ATA_NOT_FOUND), tr5)
                    | Some _ =>
                      match Token_createTransferCheckedInstruction
                              TOKEN_PROGRAM_ID payerATA token recipientATA payer
                              tokens (mint_decimals mint) with
                      | inr instruction => (Fulfilled instruction, tr5)
                      | inl e => (Rejected e, tr5)
                      end
                    end
                  else (Rejected (OwnerCannotSign recipient), tr4)
                end
              end
            end
          end
        else (Rejected (OwnerCannotSign payer), tr2)
  end.
Proof.
  unfold tokenTransfer, bind, getAccountInfo, getAssociatedTokenAddress,
    orThrow, throwIf, lift, throw, ret.
  cbv zeta.
  destruct (connection token) as [tokenInfo|]; [|reflexivity].
  destruct (negb (PublicKey_equals _ _)); [reflexivity|].
  destruct (negb (_ =? MintLayout_span)); [reflexivity|].
  destruct (mint_isInitialized _ =? 0); [reflexivity|].
  destruct (mint_decimals _ <? _); [reflexivity|].
  destruct (isOnCurve payer); [|reflexivity].
  destruct (connection (find _ _ token payer)) as [payerATAInfo|]; [|reflexivity].
  destruct (AccountLayout_decode_amount _) as [e|balance]; [reflexivity|].
  destruct (u64.ofString _) as [e|tokens]; [reflexivity|].
  destruct (u64.gt tokens balance) as [e|[|]]; [reflexivity|reflexivity|].
  destruct (isOnCurve recipient); [|reflexivity].
  destruct (connection (find _ _ token recipient)); [|reflexivity].
  destruct (Token_createTransferCheckedInstruction _ _ _ _ _ _ _); reflexivity.
Qed.

(** The token branch as it runs: the comparison of line 113 holds whenever it
    is reached, so that the branch ends there at the latest. *)
Lemma tokenTransfer_runs (token : PublicKey) (tr : list Event) :
  tokenTransfer find isOnCurve connection payer recipient token amount tr =
  let tr1 := tr ++ [GetAccountInfo token] in
  match connection token with
  | None => (Rejected (Error TOKEN_NOT_FOUND), tr1)
  | Some tokenInfo =>
    if negb (PublicKey_equals (owner tokenInfo) TOKEN_PROGRAM_ID)
    then (Rejected (Error TOKEN_INVALID_PROGRAM), tr1)
    else if negb (Z.of_nat (List.length (data tokenInfo)) =? MintLayout_span)
    then (Rejected (Error TOKEN_INVALID_LENGTH), tr1)
    else
      let mint := MintLayout_decode (data tokenInfo) in
      if mint_isInitialized mint =? 0
      then (Rejected (Error TOKEN_MINT_NOT_INITIALIZED), tr1)
      else if mint_decimals mint <? BigNumber.decimalPlaces amount
      then (Rejected (Error AMOUNT_INVALID_DECIMALS), tr1)
      else
        let tr2 := tr1 ++ [GetAssociatedTokenAddress token payer] in
        if isOnCurve payer then
          let payerATA :=
            find ASSOCIATED_TOKEN_PROGRAM_ID TOKEN_PROGRAM_ID token payer in
          let tr3 := tr2 ++ [GetAccountInfo payerATA] in
          match connection payerATA with
          | None => (Rejected (Error PAYER_ATA_NOT_FOUND), tr3)
          | Some payerATAInfo =>
            match AccountLayout_decode_amount (data payerATAInfo) with
            | inl e => (Rejected e, tr3)
            | inr balance =>
              match u64.ofString
                      (BigNumber.toString
                         (toTokens amount (mint_decimals mint))) with
              | inl e => (Rejected e, tr3)
              | inr tokens =>
                (Rejected (Error PAYER_ATA_INSUFFICIENT_FUNDS), tr3)
              end
            end
          end
        else (Rejected (OwnerCannotSign payer), tr2)
  end.
Proof.
  rewrite tokenTransfer_unfold. cbv zeta.
  destruct (connection token) as [tokenInfo|]; [|reflexivity].
  destruct (negb (PublicKey_equals _ _)); [reflexivity|].
  destruct (negb (_ =? MintLayout_span)); [reflexivity|].
  destruct (mint_isInitialized _ =? 0); [reflexivity|].
  destruct (mint_decimals _ <? _); [reflexivity|].
  destruct (isOnCurve payer); [|reflexivity].
  destruct (connection (find _ _ token payer)) as [payerATAInfo|]; [|reflexivity].
  destruct (AccountLayout_decode_amount _) as [e|balance] eqn:Hdecode;
    [reflexivity|].
  destruct (u64.ofString _) as [e|tokens] eqn:Htokens; [reflexivity|].
  apply ofString_inr in Htokens. destruct Htokens as [-> Hmagnitude].
  rewrite (gt_Buffer _ balance Hmagnitude (decode_amount_length _ _ Hdecode)).
  reflexivity.
Qed.

(** Lines 138-157 applied to the instruction a branch built. *)
Lemma createTransaction_unfold (options : Options) :
  run (createTransaction find isOnCurve connection payer recipient amount options) =
  match connection payer with
  | None => (Rejected (Error PAYER_NOT_FOUND), [GetAccountInfo payer])
  | Some payerInfo =>
    let tr := [GetAccountInfo payer; GetAccountInfo recipient] in
    match connection recipient with
    | None => (Rejected (Error RECIPIENT_NOT_FOUND), tr)
    | Some _ =>
      match
        match token options with
        | None => nativeTransfer payer recipient payerInfo amount tr
        | Some token =>
          tokenTransfer find isOnCurve connection payer recipient token amount tr
        end
      with
      | (Fulfilled instruction, tr') =>
        let transaction :=
          Transaction_add Transaction_new
            (addReferences (references options) instruction) in
        (Fulfilled match memo options with
                   | Some memo => Transaction_add transaction (memoInstruction memo)
                   | None => transaction
                   end, tr')
      | (Rejected e, tr') => (Rejected e, tr')
      end
    end
  end.
Proof.
  unfold run, createTransaction, bind, getAccountInfo, orThrow, throw, ret.
  cbn [app].
  destruct (connection payer) as [payerInfo|]; [|reflexivity].
  destruct (connection recipient) as [recipientInfo|]; [|reflexivity].
  cbv zeta.
  destruct (token options) as [tok|].
  - destruct (tokenTransfer _ _ _ _ _ _ _ _) as [[ix|e] tr']; reflexivity.
  - destruct (nativeTransfer _ _ _ _ _) as [[ix|e] tr']; reflexivity.
Qed.

End Pipeline.
(** ** Mint validation *)

Section MintChecks.

Variable find : PublicKey -> PublicKey -> PublicKey -> PublicKey -> PublicKey.
Variable isOnCurve : PublicKey -> bool.
Variable connection : Connection.
Variables payer recipient token : PublicKey.
Variable amount : BigNumber.t.
Variable tokenInfo : AccountInfo.

Hypothesis token_found : connection token = Some tokenInfo.
Hypothesis token_owner : owner tokenInfo = TOKEN_PROGRAM_ID.
Hypothesis token_length : Z.of_nat (List.length (data tokenInfo)) = MintLayout_span.
Hypothesis token_initialized :
  mint_isInitialized (MintLayout_decode (data tokenInfo)) <> 0.

(** Once the mint is accepted, the branch goes on with the precision check. *)
Lemma tokenTransfer_valid_mint (tr : list Event) :
  tokenTransfer find isOnCurve connection payer recipient token amount tr =
  let decimals := mint_decimals (MintLayout_decode (data tokenInfo)) in
  let tr1 := tr ++ [GetAccountInfo token] in
  if decimals <? BigNumber.decimalPlaces amount
  then (Rejected (Error AMOUNT_INVALID_DECIMALS), tr1)
  else
    let tr2 := tr1 ++ [GetAssociatedTokenAddress token payer] in
    if isOnCurve payer then
      let payerATA :=
        find ASSOCIATED_TOKEN_PROGRAM_ID TOKEN_PROGRAM_ID token payer in
      let tr3 := tr2 ++ [GetAccountInfo payerATA] in
      match connection payerATA with
      | None => (Rejected (Error PAYER_ATA_NOT_FOUND), tr3)
      | Some payerATAInfo =>
        match AccountLayout_decode_amount (data payerATAInfo) with
        | inl e => (Rejected e, tr3)
        | inr balance =>
          match u64.ofString (BigNumber.toString (toTokens amount decimals)) with
          | inl e => (Rejected e, tr3)
          | inr tokens => (Rejected (Error PAYER_ATA_INSUFFICIENT_FUNDS), tr3)
          end
        end
      end
    else (Rejected (OwnerCannotSign payer), tr2).
Proof.
  rewrite tokenTransfer_runs. cbv zeta. rewrite token_found.
  unfold PublicKey_equals. rewrite token_owner, String.eqb_refl.
  rewrite token_length, Z.eqb_refl. cbn [negb].
  apply Z.eqb_neq in token_initialized. rewrite token_initialized.
  reflexivity.
Qed.

End MintChecks.

(** ** The two branches after the parties are resolved *)

Section Branches.

Variable find : PublicKey -> PublicKey -> PublicKey -> PublicKey -> PublicKey.
Variable isOnCurve : PublicKey -> bool.
Variable connection : Connection.
Variables payer recipient : PublicKey.
Variable amount : BigNumber.t.
Variable options : Options.
Variables payerInfo recipientInfo : AccountInfo.

Hypothesis payer_found : connection payer = Some payerInfo.
Hypothesis recipient_found : connection recipient = Some recipientInfo.

Lemma createTransaction_native :
  token options = None ->
  run (createTransaction find isOnCurve connection payer recipient amount options) =
  let tr := [GetAccountInfo payer; GetAccountInfo recipient] in
  let lamports_ := BigNumber.toNumber (toLamports amount) in
  if SOL_DECIMALS <? BigNumber.decimalPlaces amount
  then (Rejected (Error AMOUNT_INVALID_DECIMALS), tr)
  else if Number.gt lamports_ (lamports payerInfo)
  then (Rejected (Error PAYER_INSUFFICIENT_FUNDS), tr)
  else if Number.isInt64 lamports_
  then
    let transfer :=
      addReferences (references options)
        (SystemProgram_transferInstruction payer recipient lamports_) in
    (Fulfilled {| instructions :=
                    transfer :: match memo options with
                                | Some memo => [memoInstruction memo]
                                | None => []
                                end |}, tr)
  else (Rejected RangeError, tr).
Proof.
  intro Htoken.
  rewrite createTransaction_unfold, payer_found, recipient_found, Htoken.
  cbv zeta. rewrite nativeTransfer_unfold.
  destruct (SOL_DECIMALS <? _); [reflexivity|].
  destruct (Number.gt _ _); [reflexivity|].
  destruct (Number.isInt64 _); [|reflexivity].
  destruct (memo options); reflexivity.
Qed.

(** With a token the call ends as the token branch does: the branch never
    hands an instruction over. *)
Lemma createTransaction_token (mintAddress : PublicKey) :
  token options = Some mintAddress ->
  run (createTransaction find isOnCurve connection payer recipient amount options) =
  match tokenTransfer find isOnCurve connection payer recipient mintAddress amount
          [GetAccountInfo payer; GetAccountInfo recipient] with
  | (Fulfilled instruction, tr) =>
    (Fulfilled {| instructions :=
                    addReferences (references options) instruction
                    :: match memo options with
                       | Some memo => [memoInstruction memo]
                       | None => []
                       end |}, tr)
  | (Rejected e, tr) => (Rejected e, tr)
  end.
Proof.
  intro Htoken.
  rewrite createTransaction_unfold, payer_found, recipient_found, Htoken.
  cbv zeta.
  destruct (tokenTransfer _ _ _ _ _ _ _ _) as [[ix|e] tr]; [|reflexivity].
  destruct (memo options); reflexivity.
Qed.

End Branches.

(** ** Rounding and the 64-bit range *)

Lemma roundToSignificand_le_2_63 (n : Z) :
  0 <= n <= 2 ^ 63 -> Number.roundToSignificand n <= 2 ^ 63.
Proof.
  intros [Hlow Hhigh].
  destruct (Z.eq_dec n (2 ^ 63)) as [->|Hneq]; [vm_compute; discriminate|].
  unfold Number.roundToSignificand.
  destruct (n <? 2 ^ 53) eqn:E; [exact Hhigh|].
  apply Z.ltb_ge in E. cbv zeta.
  assert (Hpos : 0 < n).
  { apply Z.lt_le_trans with (2 ^ 53); [reflexivity | exact E]. }
  assert (Hlog53 : 53 <= Z.log2 n) by (apply Z.log2_le_pow2; assumption).
  assert (Hlog63 : Z.log2 n < 63) by (apply Z.log2_lt_pow2; lia).
  destruct (Z.log2_spec n Hpos) as [_ Hupper].
  set (k := Z.log2 n - 52) in *.
  assert (Hk : 0 < 2 ^ k) by (apply Z.pow_pos_nonneg; lia).
  assert (Hsplit : 2 ^ Z.succ (Z.log2 n) = 2 ^ k * 2 ^ 53).
  { rewrite <- Z.pow_add_r by lia. f_equal. lia. }
  assert (Hq : n / 2 ^ k < 2 ^ 53).
  { apply Z.div_lt_upper_bound; [exact Hk|]. lia. }
  assert (Hcap : 2 ^ 53 * 2 ^ k <= 2 ^ 63).
  { rewrite Z.mul_comm, <- Hsplit. apply Z.pow_le_mono_r; lia. }
  assert (Hgoal : forall q', q' <= n / 2 ^ k + 1 -> q' * 2 ^ k <= 2 ^ 63).
  { intros q' Hq'. apply Z.le_trans with (2 ^ 53 * 2 ^ k); [|exact Hcap].
    apply Z.mul_le_mono_nonneg_r; lia. }
  destruct (n mod 2 ^ k <? 2 ^ (k - 1));
    [|destruct (2 ^ (k - 1) <? n mod 2 ^ k); [|destruct (Z.even (n / 2 ^ k))]];
    apply Hgoal; first [apply Z.le_refl | apply Z.le_succ_diag_r].
Qed.

(** Lamports of magnitude at most [2^53] are written as they are. *)
Lemma exact_isInt64 (v : Z) :
  Z.abs v <= 2 ^ 53 -> Number.isInt64 (BigNumber.toNumber v) = true.
Proof.
  intro Hv. rewrite (toNumber_exact v Hv). cbn [Number.isInt64].
  assert (2 ^ 53 < 2 ^ 63) by reflexivity.
  apply andb_true_intro. split; [apply Z.leb_le | apply Z.ltb_lt]; lia.
Qed.

(** ** The claims *)

(** C1 (amount conversion), as amended.  For an amount with no more fractional
    digits than the precision, the integer computed at lines 67 and 98 is the
    floor of [amount * 10^precision] in exact rational arithmetic, and is in
    fact equal to that product.  In the token branch the [u64] built from it
    at line 112 is that integer, below [10^21] in magnitude.  In the native
    branch the lamports go through [toNumber()]: they are that integer
    whenever it is at most [2^53] in magnitude, and then a call that passes
    the balance check returns the transfer of exactly that many lamports. *)
Theorem amount_used_is_floor :
  forall (amount : BigNumber.t) (precision : Z),
    0 <= precision ->
    BigNumber.decimalPlaces amount <= precision ->
    let floor := Qfloor (BigNumber.toQ amount * inject_Z (10 ^ precision)) in
    toTokens amount precision = floor
    /\ (inject_Z floor == BigNumber.toQ amount * inject_Z (10 ^ precision))%Q
    /\ (Z.abs floor < 10 ^ 21 ->
        u64.ofString (BigNumber.toString (toTokens amount precision))
          = inr floor)
    /\ (precision = SOL_DECIMALS ->
        toLamports amount = floor
        /\ (Z.abs floor <= 2 ^ 53 ->
            BigNumber.toNumber (toLamports amount) = Number.Num floor)
        /\ forall find isOnCurve (connection : Connection) payer recipient
                  options payerInfo recipientInfo,
             connection payer = Some payerInfo ->
             connection recipient = Some recipientInfo ->
             token options = None ->
             Z.abs floor <= 2 ^ 53 ->
             floor <= lamports payerInfo ->
             run (createTransaction find isOnCurve connection payer recipient
                    amount options)
               = (Fulfilled {| instructions :=
                    addReferences (references options)
                      (SystemProgram_transferInstruction payer recipient
                         (Number.Num floor))
                    :: match memo options with
                       | Some text => [memoInstruction text]
                       | None => []
                       end |},
                  [GetAccountInfo payer; GetAccountInfo recipient])).
Proof.
  intros amount precision Hp Hd floor.
  assert (Hfloor : toTokens amount precision = floor).
  { subst floor. rewrite toTokens_eq, Qfloor_scaled. reflexivity. }
  split; [exact Hfloor|]. split; [|split].
  - rewrite <- Hfloor.
    destruct (scaled_is_integer amount precision Hp Hd) as [c Hc].
    rewrite toTokens_eq, Hc.
    rewrite Z.div_mul by (apply Z.pow_nonzero; lia).
    unfold BigNumber.toQ, inject_Z, Qmult, Qeq. cbn [Qnum Qden].
    rewrite Pos.mul_1_r, pow10_spec. lia.
  - intro Hmagnitude. rewrite Hfloor. apply u64_ofString_toString. exact Hmagnitude.
  - intro Hnative.
    assert (Hlamports : toLamports amount = floor).
    { rewrite toLamports_eq, <- Hnative. exact Hfloor. }
    split; [exact Hlamports|]. split.
    + intro Hmagnitude. rewrite Hlamports. apply toNumber_exact. exact Hmagnitude.
    + intros find isOnCurve connection payer recipient options payerInfo
        recipientInfo Hpayer Hrecipient Htoken Hmagnitude Hbalance.
      rewrite (createTransaction_native find isOnCurve connection payer recipient
                 amount options payerInfo recipientInfo Hpayer Hrecipient Htoken).
      cbv zeta. rewrite Hnative in Hd. apply Z.ltb_ge in Hd. rewrite Hd.
      rewrite Hlamports, (exact_isInt64 _ Hmagnitude).
      rewrite (toNumber_exact _ Hmagnitude). cbn [Number.gt].
      apply Z.ltb_ge in Hbalance. rewrite Hbalance. reflexivity.
Qed.

(** 1.999999999 SOL is 1999999999 lamports, in the instruction returned too. *)
Lemma amount_used_is_floor_witness :
  toLamports (BigNumber.mk 1999999999 9) = 1999999999
  /\ run (createTransaction Fixtures.derive Fixtures.onCurve
            (Fixtures.nativeLedger 2000000000)
            "payer"%string "recipient"%string
            (BigNumber.mk 1999999999 9) Fixtures.plain)
     = (Fulfilled {| instructions :=
          [SystemProgram_transferInstruction "payer"%string "recipient"%string
             (Number.Num 1999999999)] |},
        [GetAccountInfo "payer"%string; GetAccountInfo "recipient"%string]).
Proof.
  destruct (amount_used_is_floor (BigNumber.mk 1999999999 9) 9
              ltac:(vm_compute; discriminate) ltac:(vm_compute; discriminate))
    as (_ & _ & _ & Hnative).
  destruct (Hnative eq_refl) as (Hlamports & _ & Hrun).
  split; [exact Hlamports|].
  apply (Hrun Fixtures.derive Fixtures.onCurve (Fixtures.nativeLedger 2000000000)
           "payer"%string "recipient"%string Fixtures.plain
           (Fixtures.wallet 2000000000) (Fixtures.wallet 0)
           eq_refl eq_refl eq_refl).
  - vm_compute. discriminate.
  - vm_compute. discriminate.
Defined.

(** The claim as stated fails on large amounts in the native branch:
    9007199.254740995 SOL has 9 fractional digits, the floor is
    9007199254740995 lamports, and the instruction returned transfers
    9007199254740996. *)
Lemma amount_used_counterexample :
  BigNumber.decimalPlaces (BigNumber.mk 9007199254740995 9) <= SOL_DECIMALS
  /\ Qfloor (BigNumber.toQ (BigNumber.mk 9007199254740995 9)
             * inject_Z (10 ^ SOL_DECIMALS))
     = 9007199254740995
  /\ run (createTransaction Fixtures.derive Fixtures.onCurve
            (Fixtures.nativeLedger 18014398509481984)
            "payer"%string "recipient"%string
            (BigNumber.mk 9007199254740995 9) Fixtures.plain)
     = (Fulfilled {| instructions :=
          [SystemProgram_transferInstruction "payer"%string "recipient"%string
             (Number.Num 9007199254740996)] |},
        [GetAccountInfo "payer"%string; GetAccountInfo "recipient"%string]).
Proof.
  repeat split; reflexivity.
Qed.
(** C2 (excess precision).  Once payer and recipient are resolved (and, with a
    token, once the mint is accepted), an amount with more fractional digits
    than the precision is rejected with AMOUNT_INVALID_DECIMALS, whatever the
    balances are; the interactions performed are the lookups made before the
    check, so no address is derived, no token account is read and no
    instruction is built. *)
Theorem excess_precision_rejected :
  forall find isOnCurve (connection : Connection) payer recipient amount options
         payerInfo recipientInfo,
    connection payer = Some payerInfo ->
    connection recipient = Some recipientInfo ->
    (token options = None ->
     SOL_DECIMALS < BigNumber.decimalPlaces amount ->
     run (createTransaction find isOnCurve connection payer recipient amount options)
       = (Rejected (Error AMOUNT_INVALID_DECIMALS),
          [GetAccountInfo payer; GetAccountInfo recipient]))
    /\ (forall mintAddress tokenInfo,
        token options = Some mintAddress ->
        connection mintAddress = Some tokenInfo ->
        owner tokenInfo = TOKEN_PROGRAM_ID ->
        Z.of_nat (List.length (data tokenInfo)) = MintLayout_span ->
        mint_isInitialized (MintLayout_decode (data tokenInfo)) <> 0 ->
        mint_decimals (MintLayout_decode (data tokenInfo))
          < BigNumber.decimalPlaces amount ->
        run (createTransaction find isOnCurve connection payer recipient amount options)
          = (Rejected (Error AMOUNT_INVALID_DECIMALS),
             [GetAccountInfo payer; GetAccountInfo recipient;
              GetAccountInfo mintAddress])).
Proof.
  intros find isOnCurve connection payer recipient amount options payerInfo recipientInfo
    Hpayer Hrecipient.
  split.
  - intros Htoken Hprecision.
    rewrite (createTransaction_native find isOnCurve connection payer recipient amount
               options payerInfo recipientInfo Hpayer Hrecipient Htoken).
    cbv zeta. apply Z.ltb_lt in Hprecision. rewrite Hprecision. reflexivity.
  - intros mintAddress tokenInfo Htoken Hfound Howner Hlength Hinit Hprecision.
    rewrite (createTransaction_token find isOnCurve connection payer recipient amount
               options payerInfo recipientInfo Hpayer Hrecipient mintAddress Htoken).
    rewrite (tokenTransfer_valid_mint find isOnCurve connection payer recipient mintAddress
               amount tokenInfo Hfound Howner Hlength Hinit).
    cbv zeta. apply Z.ltb_lt in Hprecision. rewrite Hprecision. reflexivity.
Qed.

Lemma excess_precision_rejected_witness :
  run (createTransaction Fixtures.derive Fixtures.onCurve (Fixtures.nativeLedger 0)
         "payer"%string "recipient"%string
         (BigNumber.mk 10000000001 10) Fixtures.plain)
    = (Rejected (Error AMOUNT_INVALID_DECIMALS),
       [GetAccountInfo "payer"%string; GetAccountInfo "recipient"%string])
  /\ run (createTransaction Fixtures.derive Fixtures.onCurve
            (Fixtures.tokenLedger (Some Fixtures.sixDecimals) true)
            "payer"%string "recipient"%string
            (BigNumber.mk 10000001 7) Fixtures.withToken)
    = (Rejected (Error AMOUNT_INVALID_DECIMALS),
       [GetAccountInfo "payer"%string; GetAccountInfo "recipient"%string;
        GetAccountInfo "mint"%string]).
Proof.
  split.
  - apply (proj1 (excess_precision_rejected Fixtures.derive Fixtures.onCurve
                    (Fixtures.nativeLedger 0) "payer"%string "recipient"%string
                    (BigNumber.mk 10000000001 10) Fixtures.plain
                    (Fixtures.wallet 0) (Fixtures.wallet 0)
                    eq_refl eq_refl)).
    + reflexivity.
    + reflexivity.
  - apply (proj2 (excess_precision_rejected Fixtures.derive Fixtures.onCurve
                    (Fixtures.tokenLedger (Some Fixtures.sixDecimals) true)
                    "payer"%string "recipient"%string
                    (BigNumber.mk 10000001 7) Fixtures.withToken
                    (Fixtures.wallet 5000) (Fixtures.wallet 0)
                    eq_refl eq_refl)
             "mint"%string Fixtures.sixDecimals).
    + reflexivity.
    + reflexivity.
    + reflexivity.
    + reflexivity.
    + vm_compute. discriminate.
    + reflexivity.
Defined.


(** C3 (insufficient funds).  What the token branch does with the balance
    check: the [amount] decoded at line 111 is a buffer of 8 bytes and not a
    big integer, and [tokens.gt(balance)] holds against it for every amount.
    Once the earlier checks have passed and the payer's token account is a
    record of 165 bytes, the call fails with PAYER_ATA_INSUFFICIENT_FUNDS
    whatever the balance is, also when the balance equals or exceeds the
    amount, and the recipient's token account is never looked up. *)
Theorem token_balance_check_always_fails :
  forall find isOnCurve (connection : Connection) payer recipient amount options
         payerInfo recipientInfo mintAddress tokenInfo payerATAInfo,
    connection payer = Some payerInfo ->
    connection recipient = Some recipientInfo ->
    token options = Some mintAddress ->
    connection mintAddress = Some tokenInfo ->
    owner tokenInfo = TOKEN_PROGRAM_ID ->
    Z.of_nat (List.length (data tokenInfo)) = MintLayout_span ->
    mint_isInitialized (MintLayout_decode (data tokenInfo)) <> 0 ->
    BigNumber.decimalPlaces amount
      <= mint_decimals (MintLayout_decode (data tokenInfo)) ->
    isOnCurve payer = true ->
    connection (find ASSOCIATED_TOKEN_PROGRAM_ID TOKEN_PROGRAM_ID mintAddress payer)
      = Some payerATAInfo ->
    Z.of_nat (List.length (data payerATAInfo)) = AccountLayout_span ->
    Z.abs (toTokens amount (mint_decimals (MintLayout_decode (data tokenInfo))))
      < 10 ^ 21 ->
    run (createTransaction find isOnCurve connection payer recipient amount options)
      = (Rejected (Error PAYER_ATA_INSUFFICIENT_FUNDS),
         [GetAccountInfo payer; GetAccountInfo recipient;
          GetAccountInfo mintAddress;
          GetAssociatedTokenAddress mintAddress payer;
          GetAccountInfo
            (find ASSOCIATED_TOKEN_PROGRAM_ID TOKEN_PROGRAM_ID mintAddress payer)]).
Proof.
  intros find isOnCurve connection payer recipient amount options payerInfo
    recipientInfo mintAddress tokenInfo payerATAInfo Hpayer Hrecipient Htoken
    Hfound Howner Hlength Hinit Hprecision Hcurve Hata Hrecord Hmagnitude.
  rewrite (createTransaction_token find isOnCurve connection payer recipient
             amount options payerInfo recipientInfo Hpayer Hrecipient
             mintAddress Htoken).
  rewrite (tokenTransfer_valid_mint find isOnCurve connection payer recipient
             mintAddress amount tokenInfo Hfound Howner Hlength Hinit).
  cbv zeta. apply Z.ltb_ge in Hprecision. rewrite Hprecision, Hcurve, Hata.
  rewrite (decode_amount_of_record _ Hrecord).
  rewrite (u64_ofString_toString _ Hmagnitude). reflexivity.
Qed.

(** The scenario of the specification: 10 units of a 6-decimal mint against a
    balance of exactly 10000000, every account in place. *)
Lemma token_balance_check_always_fails_witness :
  toTokens (BigNumber.mk 10 0) 6 = 10000000
  /\ data (Fixtures.tokenAccount Fixtures.tenMillion)
     = (repeat x00 64 ++ [x80; x96; x98; x00; x00; x00; x00; x00]
        ++ repeat x00 93)%list
  /\ run (createTransaction Fixtures.derive Fixtures.onCurve
            (Fixtures.tokenLedger (Some Fixtures.sixDecimals) true)
            "payer"%string "recipient"%string (BigNumber.mk 10 0)
            Fixtures.withToken)
     = (Rejected (Error PAYER_ATA_INSUFFICIENT_FUNDS),
        [GetAccountInfo "payer"%string; GetAccountInfo "recipient"%string;
         GetAccountInfo "mint"%string;
         GetAssociatedTokenAddress "mint"%string "payer"%string;
         GetAccountInfo "ata/mint/payer"%string]).
Proof.
  split; [reflexivity|]. split; [reflexivity|].
  apply (token_balance_check_always_fails Fixtures.derive Fixtures.onCurve
           (Fixtures.tokenLedger (Some Fixtures.sixDecimals) true)
           "payer"%string "recipient"%string (BigNumber.mk 10 0)
           Fixtures.withToken (Fixtures.wallet 5000) (Fixtures.wallet 0)
           "mint"%string Fixtures.sixDecimals
           (Fixtures.tokenAccount Fixtures.tenMillion)
           eq_refl eq_refl eq_refl eq_refl eq_refl eq_refl
           ltac:(vm_compute; discriminate) ltac:(vm_compute; discriminate)
           eq_refl eq_refl eq_refl eq_refl).
Defined.
(** C4 (native comparison), as amended.  The native branch compares numbers:
    it fails with PAYER_INSUFFICIENT_FUNDS exactly when the number nearest to
    the lamports exceeds the balance.  This is the exact comparison of the
    lamports with the balance whenever the lamports are at most [2^53] in
    magnitude. *)
Theorem native_comparison_on_numbers :
  forall find isOnCurve (connection : Connection) payer recipient amount options
         payerInfo recipientInfo,
    connection payer = Some payerInfo ->
    connection recipient = Some recipientInfo ->
    token options = None ->
    BigNumber.decimalPlaces amount <= SOL_DECIMALS ->
    (fst (run (createTransaction find isOnCurve connection payer recipient amount options))
       = Rejected (Error PAYER_INSUFFICIENT_FUNDS)
     <-> Number.gt (BigNumber.toNumber (toLamports amount)) (lamports payerInfo)
         = true)
    /\ (Z.abs (toLamports amount) <= 2 ^ 53 ->
        (fst (run (createTransaction find isOnCurve connection payer recipient amount options))
           = Rejected (Error PAYER_INSUFFICIENT_FUNDS)
         <-> lamports payerInfo < toLamports amount)).
Proof.
  intros find isOnCurve connection payer recipient amount options payerInfo recipientInfo
    Hpayer Hrecipient Htoken Hprecision.
  rewrite (createTransaction_native find isOnCurve connection payer recipient amount
             options payerInfo recipientInfo Hpayer Hrecipient Htoken).
  cbv zeta. apply Z.ltb_ge in Hprecision. rewrite Hprecision.
  assert (Hcode :
    fst (if Number.gt (BigNumber.toNumber (toLamports amount)) (lamports payerInfo)
         then (Rejected (Error PAYER_INSUFFICIENT_FUNDS),
               [GetAccountInfo payer; GetAccountInfo recipient])
         else if Number.isInt64 (BigNumber.toNumber (toLamports amount))
         then (Fulfilled
                 {| instructions :=
                      addReferences (references options)
                        (SystemProgram_transferInstruction payer recipient
                           (BigNumber.toNumber (toLamports amount)))
                      :: match memo options with
                         | Some memo => [memoInstruction memo]
                         | None => []
                         end |},
               [GetAccountInfo payer; GetAccountInfo recipient])
         else (Rejected RangeError,
               [GetAccountInfo payer; GetAccountInfo recipient]))
      = Rejected (Error PAYER_INSUFFICIENT_FUNDS)
    <-> Number.gt (BigNumber.toNumber (toLamports amount)) (lamports payerInfo)
        = true).
  { destruct (Number.gt _ _); [cbn [fst]; split; congruence|].
    destruct (Number.isInt64 _); cbn [fst]; split; congruence. }
  split; [exact Hcode|].
  intro Hmagnitude. rewrite Hcode.
  rewrite (toNumber_exact _ Hmagnitude). cbn [Number.gt].
  apply Z.ltb_lt.
Qed.

Lemma native_comparison_on_numbers_witness :
  (fst (run (createTransaction Fixtures.derive Fixtures.onCurve
               (Fixtures.nativeLedger 1500000000)
               "payer"%string "recipient"%string
               (BigNumber.mk 1500000001 9) Fixtures.plain))
     = Rejected (Error PAYER_INSUFFICIENT_FUNDS)
   <-> 1500000000 < 1500000001).
Proof.
  apply (proj2 (native_comparison_on_numbers Fixtures.derive Fixtures.onCurve
                  (Fixtures.nativeLedger 1500000000)
                  "payer"%string "recipient"%string
                  (BigNumber.mk 1500000001 9) Fixtures.plain
                  (Fixtures.wallet 1500000000) (Fixtures.wallet 0)
                  eq_refl eq_refl eq_refl
                  ltac:(vm_compute; discriminate))).
  vm_compute. discriminate.
Defined.

(** The claim as stated fails beyond [2^53]: 9007199254740993 lamports are
    more than the balance 9007199254740992 = [2^53], yet the number compared
    is 9007199254740992 and the call succeeds. *)
Lemma native_comparison_counterexample :
  BigNumber.decimalPlaces (BigNumber.mk 9007199254740993 9) <= SOL_DECIMALS
  /\ toLamports (BigNumber.mk 9007199254740993 9) = 9007199254740993
  /\ lamports (Fixtures.wallet 9007199254740992)
     < toLamports (BigNumber.mk 9007199254740993 9)
  /\ BigNumber.toNumber (toLamports (BigNumber.mk 9007199254740993 9))
     = Number.Num 9007199254740992
  /\ fst (run (createTransaction Fixtures.derive Fixtures.onCurve
                 (Fixtures.nativeLedger 9007199254740992)
                 "payer"%string "recipient"%string
                 (BigNumber.mk 9007199254740993 9) Fixtures.plain))
     = Fulfilled {| instructions :=
         [SystemProgram_transferInstruction "payer"%string "recipient"%string
            (Number.Num 9007199254740992)] |}.
Proof.
  repeat split; reflexivity.
Qed.

(** After an accepted mint the branch never reports a mint error. *)
Lemma valid_mint_no_mint_error :
  forall find isOnCurve (connection : Connection) payer recipient mintAddress amount
         tokenInfo tr instructionOrError tr',
    connection mintAddress = Some tokenInfo ->
    owner tokenInfo = TOKEN_PROGRAM_ID ->
    Z.of_nat (List.length (data tokenInfo)) = MintLayout_span ->
    mint_isInitialized (MintLayout_decode (data tokenInfo)) <> 0 ->
    tokenTransfer find isOnCurve connection payer recipient mintAddress amount tr
      = (instructionOrError, tr') ->
    instructionOrError <> Rejected (Error TOKEN_NOT_FOUND)
    /\ instructionOrError <> Rejected (Error TOKEN_INVALID_PROGRAM)
    /\ instructionOrError <> Rejected (Error TOKEN_INVALID_LENGTH)
    /\ instructionOrError <> Rejected (Error TOKEN_MINT_NOT_INITIALIZED).
Proof.
  intros find isOnCurve connection payer recipient mintAddress amount tokenInfo tr r tr'
    Hfound Howner Hlength Hinit.
  rewrite (tokenTransfer_valid_mint find isOnCurve connection payer recipient mintAddress
             amount tokenInfo Hfound Howner Hlength Hinit).
  cbv zeta.
  repeat match goal with
         | |- context [if ?c then _ else _] => destruct c
         | |- context [match ?x with Some _ => _ | None => _ end] => destruct x
         | |- context [match ?x with inl _ => _ | inr _ => _ end] =>
           destruct x eqn:?
         end;
    repeat match goal with
           | H : AccountLayout_decode_amount _ = inl _ |- _ =>
             apply decode_amount_inl in H; subst
           | H : u64.ofString _ = inl _ |- _ => apply ofString_inl in H; subst
           end;
    intro H; injection H as <- _; repeat split; discriminate.
Qed.

(** C5 (mint validation).  With a token, once payer and recipient are
    resolved, the call fails with TOKEN_NOT_FOUND exactly when the mint account
    is absent; with TOKEN_INVALID_PROGRAM exactly when it exists and is not
    owned by the token program; with TOKEN_INVALID_LENGTH exactly when it is
    owned by the token program and its data is not of the mint record size;
    with TOKEN_MINT_NOT_INITIALIZED exactly when owner and size are right and
    the decoded mint is not initialized.  The four conditions exclude one
    another, and each failure follows the lookup of the mint directly. *)
Theorem mint_checks_in_order :
  forall find isOnCurve (connection : Connection) payer recipient amount options
         payerInfo recipientInfo mintAddress,
    connection payer = Some payerInfo ->
    connection recipient = Some recipientInfo ->
    token options = Some mintAddress ->
    let outcome :=
      run (createTransaction find isOnCurve connection payer recipient amount options) in
    let tr := [GetAccountInfo payer; GetAccountInfo recipient;
               GetAccountInfo mintAddress] in
    (fst outcome = Rejected (Error TOKEN_NOT_FOUND)
     <-> connection mintAddress = None)
    /\ (fst outcome = Rejected (Error TOKEN_INVALID_PROGRAM)
        <-> exists tokenInfo,
              connection mintAddress = Some tokenInfo
              /\ owner tokenInfo <> TOKEN_PROGRAM_ID)
    /\ (fst outcome = Rejected (Error TOKEN_INVALID_LENGTH)
        <-> exists tokenInfo,
              connection mintAddress = Some tokenInfo
              /\ owner tokenInfo = TOKEN_PROGRAM_ID
              /\ Z.of_nat (List.length (data tokenInfo)) <> MintLayout_span)
    /\ (fst outcome = Rejected (Error TOKEN_MINT_NOT_INITIALIZED)
        <-> exists tokenInfo,
              connection mintAddress = Some tokenInfo
              /\ owner tokenInfo = TOKEN_PROGRAM_ID
              /\ Z.of_nat (List.length (data tokenInfo)) = MintLayout_span
              /\ mint_isInitialized (MintLayout_decode (data tokenInfo)) = 0)
    /\ (forall kind,
          In kind [TOKEN_NOT_FOUND; TOKEN_INVALID_PROGRAM; TOKEN_INVALID_LENGTH;
                   TOKEN_MINT_NOT_INITIALIZED] ->
          fst outcome = Rejected (Error kind) -> snd outcome = tr).
Proof.
  intros find isOnCurve connection payer recipient amount options payerInfo recipientInfo
    mintAddress Hpayer Hrecipient Htoken outcome tr.
  subst outcome tr.
  rewrite (createTransaction_token find isOnCurve connection payer recipient amount
             options payerInfo recipientInfo Hpayer Hrecipient mintAddress Htoken).
  destruct (connection mintAddress) as [tokenInfo|] eqn:Hfound.
  2:{ rewrite tokenTransfer_unfold, Hfound. cbn.
      repeat split; try discriminate; try reflexivity;
        try (intros [ti [Hti _]]; discriminate). }
  destruct (String.eqb (owner tokenInfo) TOKEN_PROGRAM_ID) eqn:Howner.
  2:{ rewrite tokenTransfer_unfold, Hfound. unfold PublicKey_equals.
      rewrite Howner. cbn. apply String.eqb_neq in Howner.
      repeat split; try discriminate; try reflexivity;
        try (intros [ti [Hti Hrest]]; injection Hti as <-; tauto).
      intros _. exists tokenInfo. tauto. }
  apply String.eqb_eq in Howner.
  destruct (Z.of_nat (List.length (data tokenInfo)) =? MintLayout_span) eqn:Hlength.
  2:{ rewrite tokenTransfer_unfold, Hfound. unfold PublicKey_equals.
      rewrite Howner, String.eqb_refl, Hlength. cbn.
      apply Z.eqb_neq in Hlength.
      repeat split; try discriminate; try reflexivity;
        try (intros [ti [Hti Hrest]]; injection Hti as <-; tauto).
      intros _. exists tokenInfo. tauto. }
  apply Z.eqb_eq in Hlength.
  destruct (mint_isInitialized (MintLayout_decode (data tokenInfo)) =? 0) eqn:Hinit.
  { rewrite tokenTransfer_unfold, Hfound. unfold PublicKey_equals.
    rewrite Howner, String.eqb_refl, Hlength, Z.eqb_refl. cbn [negb].
    cbv zeta. rewrite Hinit. cbn. apply Z.eqb_eq in Hinit.
    repeat split; try discriminate; try reflexivity;
      try (intros [ti [Hti Hrest]]; injection Hti as <-; tauto).
    intros _. exists tokenInfo. tauto. }
  apply Z.eqb_neq in Hinit.
  destruct (tokenTransfer find isOnCurve connection payer recipient mintAddress amount
              [GetAccountInfo payer; GetAccountInfo recipient])
    as [r tr'] eqn:Hrun.
  destruct (valid_mint_no_mint_error find isOnCurve connection payer recipient mintAddress
              amount tokenInfo _ r tr' Hfound Howner Hlength Hinit Hrun)
    as (H1 & H2 & H3 & H4).
  assert (Hfst : forall kind,
             In kind [TOKEN_NOT_FOUND; TOKEN_INVALID_PROGRAM; TOKEN_INVALID_LENGTH;
                      TOKEN_MINT_NOT_INITIALIZED] ->
             fst (match r with
                  | Fulfilled instruction =>
                    (Fulfilled
                       {| instructions :=
                            addReferences (references options) instruction
                            :: match memo options with
                               | Some memo => [memoInstruction memo]
                               | None => []
                               end |}, tr')
                  | Rejected e => (Rejected e, tr')
                  end) <> Rejected (Error kind)).
  { intros kind Hin. destruct r as [ix|e]; cbn [fst]; [discriminate|].
    cbn [In] in Hin.
    destruct Hin as [<-|[<-|[<-|[<-|[]]]]];
      intro Heq; injection Heq as ->;
      first [now apply H1 | now apply H2 | now apply H3 | now apply H4]. }
  repeat split.
  - intro H. exfalso. apply (Hfst TOKEN_NOT_FOUND); [cbn; tauto | exact H].
  - discriminate.
  - intro H. exfalso. apply (Hfst TOKEN_INVALID_PROGRAM); [cbn; tauto | exact H].
  - intros [ti [Hti Hrest]]. injection Hti as <-. tauto.
  - intro H. exfalso. apply (Hfst TOKEN_INVALID_LENGTH); [cbn; tauto | exact H].
  - intros [ti [Hti Hrest]]. injection Hti as <-. tauto.
  - intro H. exfalso. apply (Hfst TOKEN_MINT_NOT_INITIALIZED); [cbn; tauto | exact H].
  - intros [ti [Hti Hrest]]. injection Hti as <-. tauto.
  - intros kind Hin H. exfalso. exact (Hfst kind Hin H).
Qed.

Lemma mint_checks_in_order_witness :
  fst (run (createTransaction Fixtures.derive Fixtures.onCurve (Fixtures.tokenLedger None true)
              "payer"%string "recipient"%string
              (BigNumber.mk 10 0) Fixtures.withToken))
    = Rejected (Error TOKEN_NOT_FOUND)
  /\ fst (run (createTransaction Fixtures.derive Fixtures.onCurve
                 (Fixtures.tokenLedger (Some (Fixtures.wallet 5)) true)
                 "payer"%string "recipient"%string
                 (BigNumber.mk 10 0) Fixtures.withToken))
     = Rejected (Error TOKEN_INVALID_PROGRAM)
  /\ fst (run (createTransaction Fixtures.derive Fixtures.onCurve
                 (Fixtures.tokenLedger
                    (Some (Fixtures.tokenAccount Fixtures.tenMillion)) true)
                 "payer"%string "recipient"%string
                 (BigNumber.mk 10 0) Fixtures.withToken))
     = Rejected (Error TOKEN_INVALID_LENGTH)
  /\ fst (run (createTransaction Fixtures.derive Fixtures.onCurve
                 (Fixtures.tokenLedger (Some (Fixtures.mintAccount x06 x00)) true)
                 "payer"%string "recipient"%string
                 (BigNumber.mk 10 0) Fixtures.withToken))
     = Rejected (Error TOKEN_MINT_NOT_INITIALIZED).
Proof.
  repeat apply conj.
  - apply (proj1 (mint_checks_in_order Fixtures.derive Fixtures.onCurve
                    (Fixtures.tokenLedger None true)
                    "payer"%string "recipient"%string (BigNumber.mk 10 0)
                    Fixtures.withToken (Fixtures.wallet 5000) (Fixtures.wallet 0)
                    "mint"%string eq_refl eq_refl eq_refl)).
    reflexivity.
  - apply (proj1 (proj2 (mint_checks_in_order Fixtures.derive Fixtures.onCurve
                    (Fixtures.tokenLedger (Some (Fixtures.wallet 5)) true)
                    "payer"%string "recipient"%string (BigNumber.mk 10 0)
                    Fixtures.withToken (Fixtures.wallet 5000) (Fixtures.wallet 0)
                    "mint"%string eq_refl eq_refl eq_refl))).
    exists (Fixtures.wallet 5). split; [reflexivity | discriminate].
  - apply (proj1 (proj2 (proj2 (mint_checks_in_order Fixtures.derive Fixtures.onCurve
                    (Fixtures.tokenLedger
                       (Some (Fixtures.tokenAccount Fixtures.tenMillion)) true)
                    "payer"%string "recipient"%string (BigNumber.mk 10 0)
                    Fixtures.withToken (Fixtures.wallet 5000) (Fixtures.wallet 0)
                    "mint"%string eq_refl eq_refl eq_refl)))).
    exists (Fixtures.tokenAccount Fixtures.tenMillion).
    split; [reflexivity | split; [reflexivity | discriminate]].
  - apply (proj1 (proj2 (proj2 (proj2 (mint_checks_in_order Fixtures.derive Fixtures.onCurve
                    (Fixtures.tokenLedger (Some (Fixtures.mintAccount x06 x00)) true)
                    "payer"%string "recipient"%string (BigNumber.mk 10 0)
                    Fixtures.withToken (Fixtures.wallet 5000) (Fixtures.wallet 0)
                    "mint"%string eq_refl eq_refl eq_refl))))).
    exists (Fixtures.mintAccount x06 x00).
    repeat split; reflexivity.
Defined.


(** ** Case analysis of a call *)

(** Splits a goal on the next check of the pipeline it displays. *)
Ltac next_check :=
  match goal with
  | |- context [if ?c then _ else _] => destruct c eqn:?
  | |- context [match ?x with Some _ => _ | None => _ end] => destruct x eqn:?
  | |- context [match ?x with inl _ => _ | inr _ => _ end] => destruct x eqn:?
  end.

(** Displays every check of a call as a case analysis. *)
Ltac all_checks :=
  rewrite ?createTransaction_unfold; cbv zeta;
  repeat next_check;
  rewrite ?nativeTransfer_unfold, ?tokenTransfer_runs; cbv zeta;
  repeat next_check;
  repeat match goal with
         | H : AccountLayout_decode_amount _ = inl _ |- _ =>
           apply decode_amount_inl in H; subst
         | H : u64.ofString _ = inl _ |- _ => apply ofString_inl in H; subst
         end.


(** C6 (recipient's token account).  What the code does: since the balance
    check of line 113 fails whenever it is reached, the steps after it are
    never run.  No call fails with RECIPIENT_ATA_NOT_FOUND, and no call makes
    more than five interactions: the recipient's associated token account is
    neither derived nor looked up.  With a balance that covers the amount and
    no associated token account for the recipient, the call fails with
    PAYER_ATA_INSUFFICIENT_FUNDS. *)
Theorem recipient_ata_never_reported :
  forall find isOnCurve (connection : Connection) payer recipient amount options,
    fst (run (createTransaction find isOnCurve connection payer recipient amount
                options))
      <> Rejected (Error RECIPIENT_ATA_NOT_FOUND)
    /\ (List.length
          (snd (run (createTransaction find isOnCurve connection payer recipient
                       amount options))) <= 5)%nat
    /\ Fixtures.tokenLedger (Some Fixtures.sixDecimals) false
         (Fixtures.derive ASSOCIATED_TOKEN_PROGRAM_ID TOKEN_PROGRAM_ID
            "mint"%string "recipient"%string) = None
    /\ run (createTransaction Fixtures.derive Fixtures.onCurve
              (Fixtures.tokenLedger (Some Fixtures.sixDecimals) false)
              "payer"%string "recipient"%string (BigNumber.mk 10 0)
              Fixtures.withToken)
       = (Rejected (Error PAYER_ATA_INSUFFICIENT_FUNDS),
          [GetAccountInfo "payer"%string; GetAccountInfo "recipient"%string;
           GetAccountInfo "mint"%string;
           GetAssociatedTokenAddress "mint"%string "payer"%string;
           GetAccountInfo "ata/mint/payer"%string]).
Proof.
  intros find isOnCurve connection payer recipient amount options.
  split; [|split; [|split; reflexivity]].
  - all_checks; cbn [fst]; discriminate.
  - all_checks; cbn [snd app List.length]; lia.
Qed.

(** C7 (memo).  Whatever the other inputs, supplying a memo string changes the
    outcome in one way only: a call that returns a transaction returns it with
    a second instruction after the transfer instruction, whose program is the
    memo program, whose account list is empty and whose data is the UTF-8
    encoding of the string; a call that fails, fails alike.  Without a memo the
    transaction holds the transfer instruction alone.  The empty string is a
    memo: it gives a second instruction with empty data. *)
Theorem memo_instruction_second :
  forall find isOnCurve (connection : Connection) payer recipient amount
         mintAddress referenceKeys text,
    match run (createTransaction find isOnCurve connection payer recipient amount
                 {| token := mintAddress; references := referenceKeys;
                    memo := None |}) with
    | (Fulfilled transaction, tr) =>
      exists transfer,
        instructions transaction = [transfer]
        /\ run (createTransaction find isOnCurve connection payer recipient amount
                  {| token := mintAddress; references := referenceKeys;
                     memo := Some text |})
           = (Fulfilled {| instructions :=
                [transfer;
                 {| keys := []; programId := MEMO_PROGRAM_ID;
                    ixdata := Bytes (utf8 text) |}] |}, tr)
    | (Rejected e, tr) =>
      run (createTransaction find isOnCurve connection payer recipient amount
             {| token := mintAddress; references := referenceKeys;
                memo := Some text |})
        = (Rejected e, tr)
    end
    /\ fst (run (createTransaction Fixtures.derive Fixtures.onCurve
                   (Fixtures.nativeLedger 1500000000)
                   "payer"%string "recipient"%string (BigNumber.mk 15 1)
                   {| token := None; references := None; memo := Some [] |}))
       = Fulfilled {| instructions :=
           [SystemProgram_transferInstruction "payer"%string "recipient"%string
              (Number.Num 1500000000);
            {| keys := []; programId := MEMO_PROGRAM_ID; ixdata := Bytes [] |}] |}.
Proof.
  intros find isOnCurve connection payer recipient amount mintAddress referenceKeys text.
  split; [|reflexivity].
  rewrite !createTransaction_unfold. cbv zeta.
  destruct (connection payer) as [payerInfo|]; [|reflexivity].
  destruct (connection recipient) as [recipientInfo|]; [|reflexivity].
  cbn [token references memo].
  destruct (match mintAddress with
            | Some token_ =>
              tokenTransfer find isOnCurve connection payer recipient token_ amount _
            | None => nativeTransfer payer recipient payerInfo amount _
            end) as [[instruction|e] tr]; [|reflexivity].
  eexists. split; reflexivity.
Qed.

(** C8 (references).  Whatever the other inputs, in either branch, supplying a
    non-empty list of references changes the outcome in one way only: the
    transfer instruction of the returned transaction has the same program and
    data, and its account list is the one built without references followed by
    the references, in the order given, each neither writable nor a signer. *)
Theorem references_appended :
  forall find isOnCurve (connection : Connection) payer recipient amount
         mintAddress text referenceKeys,
    referenceKeys <> [] ->
    match run (createTransaction find isOnCurve connection payer recipient amount
                 {| token := mintAddress; references := None; memo := text |}) with
    | (Fulfilled transaction, tr) =>
      exists transfer rest,
        instructions transaction = transfer :: rest
        /\ run (createTransaction find isOnCurve connection payer recipient amount
                  {| token := mintAddress; references := Some referenceKeys;
                     memo := text |})
           = (Fulfilled {| instructions :=
                {| keys := keys transfer
                           ++ map (fun key => {| pubkey := key; isSigner := false;
                                                 isWritable := false |})
                                  referenceKeys;
                   programId := programId transfer;
                   ixdata := ixdata transfer |} :: rest |}, tr)
    | (Rejected e, tr) =>
      run (createTransaction find isOnCurve connection payer recipient amount
             {| token := mintAddress; references := Some referenceKeys;
                memo := text |})
        = (Rejected e, tr)
    end.
Proof.
  intros find isOnCurve connection payer recipient amount mintAddress text referenceKeys
    Hnonempty.
  rewrite !createTransaction_unfold. cbv zeta.
  destruct (connection payer) as [payerInfo|]; [|reflexivity].
  destruct (connection recipient) as [recipientInfo|]; [|reflexivity].
  cbn [token references memo].
  destruct (match mintAddress with
            | Some token_ =>
              tokenTransfer find isOnCurve connection payer recipient token_ amount _
            | None => nativeTransfer payer recipient payerInfo amount _
            end) as [[instruction|e] tr]; [|reflexivity].
  destruct referenceKeys as [|key others]; [contradiction Hnonempty; reflexivity|].
  destruct text as [text|]; eexists; eexists; split; reflexivity.
Qed.

Lemma references_appended_witness :
  run (createTransaction Fixtures.derive Fixtures.onCurve (Fixtures.nativeLedger 1500000000)
         "payer"%string "recipient"%string (BigNumber.mk 15 1)
         {| token := None; references := Some ["r1"; "r2"]%string; memo := None |})
    = (Fulfilled {| instructions :=
         [{| keys :=
               [{| pubkey := "payer"%string; isSigner := true; isWritable := true |};
                {| pubkey := "recipient"%string; isSigner := false; isWritable := true |};
                {| pubkey := "r1"%string; isSigner := false; isWritable := false |};
                {| pubkey := "r2"%string; isSigner := false; isWritable := false |}];
             programId := SystemProgram_programId;
             ixdata := SystemTransferData (Number.Num 1500000000) |}] |},
       [GetAccountInfo "payer"%string; GetAccountInfo "recipient"%string]).
Proof.
  pose proof (references_appended Fixtures.derive Fixtures.onCurve
                (Fixtures.nativeLedger 1500000000)
                "payer"%string "recipient"%string (BigNumber.mk 15 1)
                None None ["r1"; "r2"]%string ltac:(discriminate)) as H.
  vm_compute in H.
  destruct H as (transfer & rest & Hshape & Hrun).
  injection Hshape as <- <-.
  exact Hrun.
Defined.

(** C10 (empty references).  An empty array of references is the same as no
    references: the two calls give the same outcome and the same trace, and
    the instruction built is left as it is. *)
Theorem empty_references_absent :
  forall find isOnCurve (connection : Connection) payer recipient amount mintAddress text,
    run (createTransaction find isOnCurve connection payer recipient amount
           {| token := mintAddress; references := Some []; memo := text |})
    = run (createTransaction find isOnCurve connection payer recipient amount
             {| token := mintAddress; references := None; memo := text |})
    /\ forall instruction,
         addReferences (Some []) instruction = instruction
         /\ addReferences None instruction = instruction.
Proof.
  intros find isOnCurve connection payer recipient amount mintAddress text.
  split.
  - rewrite !createTransaction_unfold. cbv zeta.
    destruct (connection payer) as [payerInfo|]; [|reflexivity].
    destruct (connection recipient) as [recipientInfo|]; reflexivity.
  - intro instruction. split; reflexivity.
Qed.

(** ** Negative amounts *)

Lemma roundToSignificand_nonneg (n : Z) :
  0 <= n -> 0 <= Number.roundToSignificand n.
Proof.
  intro Hn. unfold Number.roundToSignificand.
  destruct (n <? 2 ^ 53) eqn:E; [exact Hn|].
  apply Z.ltb_ge in E. cbv zeta.
  assert (Hlog : 53 <= Z.log2 n).
  { apply Z.log2_le_pow2; [|exact E].
    apply Z.lt_le_trans with (2 ^ 53); [reflexivity | exact E]. }
  assert (Hk : 0 < 2 ^ (Z.log2 n - 52)) by (apply Z.pow_pos_nonneg; lia).
  assert (Hq : 0 <= n / 2 ^ (Z.log2 n - 52)) by (apply Z.div_pos; lia).
  destruct (_ <? _); [|destruct (_ <? _); [|destruct (Z.even _)]];
    apply Z.mul_nonneg_nonneg; lia.
Qed.

(** The number a negative integer converts to is never above a non-negative
    balance. *)
Lemma negative_not_gt (v balance : Z) :
  v < 0 -> 0 <= balance -> Number.gt (BigNumber.toNumber v) balance = false.
Proof.
  intros Hv Hb. unfold BigNumber.toNumber, Number.ofInteger.
  pose proof (roundToSignificand_nonneg (Z.abs v) (Z.abs_nonneg v)) as Ha.
  apply Z.ltb_lt in Hv as Hneg. rewrite Hneg.
  destruct (2 ^ 1024 <=? _); [reflexivity|].
  cbn [Number.gt]. apply Z.ltb_ge.
  rewrite (proj2 (Z.sgn_neg_iff v) Hv). lia.
Qed.

Lemma toLamports_negative (amount : BigNumber.t) :
  (BigNumber.toQ amount < 0)%Q -> toLamports amount < 0.
Proof.
  unfold BigNumber.toQ, Qlt. cbn [Qnum Qden]. intro Hneg.
  rewrite toLamports_eq, toTokens_eq.
  apply Z.div_lt_upper_bound.
  - apply Z.pow_pos_nonneg; lia.
  - unfold SOL_DECIMALS. nia.
Qed.


(** Rounding to a double never takes an integer below a power of two it has
    reached. *)
Lemma roundToSignificand_ge_pow2 (n j : Z) :
  53 <= j -> 2 ^ j <= n -> 2 ^ j <= Number.roundToSignificand n.
Proof.
  intros Hj Hn. unfold Number.roundToSignificand.
  assert (H53 : 2 ^ 53 <= 2 ^ j) by (apply Z.pow_le_mono_r; lia).
  destruct (n <? 2 ^ 53) eqn:E; [exact Hn|]. cbv zeta.
  assert (Hpos : 0 < n).
  { apply Z.lt_le_trans with (2 ^ 53); [reflexivity | lia]. }
  assert (Hlog : j <= Z.log2 n) by (apply Z.log2_le_pow2; assumption).
  destruct (Z.log2_spec n Hpos) as [Hlow _].
  set (k := Z.log2 n - 52) in *.
  assert (Hk : 0 < 2 ^ k) by (apply Z.pow_pos_nonneg; lia).
  assert (Hsplit : 2 ^ Z.log2 n = 2 ^ 52 * 2 ^ k).
  { rewrite <- Z.pow_add_r by lia. f_equal. lia. }
  assert (Hq : 2 ^ 52 <= n / 2 ^ k).
  { apply Z.div_le_lower_bound; [exact Hk|]. lia. }
  assert (Hfloor : 2 ^ j <= 2 ^ 52 * 2 ^ k).
  { rewrite <- Hsplit. apply Z.pow_le_mono_r; lia. }
  assert (Hgoal : forall q', n / 2 ^ k <= q' -> 2 ^ j <= q' * 2 ^ k).
  { intros q' Hq'. apply Z.le_trans with (2 ^ 52 * 2 ^ k); [exact Hfloor|].
    apply Z.mul_le_mono_nonneg_r; lia. }
  destruct (n mod 2 ^ k <? 2 ^ (k - 1));
    [|destruct (2 ^ (k - 1) <? n mod 2 ^ k); [|destruct (Z.even (n / 2 ^ k))]];
    apply Hgoal; first [apply Z.le_refl | apply Z.le_succ_diag_r].
Qed.

(** Negative lamports down to [-2^63] are written as a signed 64-bit integer;
    from [-2^64] on they are not. *)
Lemma negative_isInt64 (v : Z) :
  - 2 ^ 63 <= v < 0 -> Number.isInt64 (BigNumber.toNumber v) = true.
Proof.
  intros [Hlow Hneg]. unfold BigNumber.toNumber, Number.ofInteger.
  pose proof (roundToSignificand_nonneg (Z.abs v) (Z.abs_nonneg v)) as Ha.
  pose proof (roundToSignificand_le_2_63 (Z.abs v) ltac:(lia)) as Hb.
  assert (Hbig : 2 ^ 63 < 2 ^ 1024) by (apply Z.pow_lt_mono_r; lia).
  replace (2 ^ 1024 <=? Number.roundToSignificand (Z.abs v)) with false
    by (symmetry; apply Z.leb_gt; lia).
  rewrite (proj2 (Z.sgn_neg_iff v) Hneg). cbn [Number.isInt64].
  apply andb_true_intro. split; [apply Z.leb_le | apply Z.ltb_lt]; lia.
Qed.

Lemma negative_not_isInt64 (v : Z) :
  v <= - 2 ^ 64 -> Number.isInt64 (BigNumber.toNumber v) = false.
Proof.
  intro Hv. unfold BigNumber.toNumber, Number.ofInteger.
  assert (H64 : 0 < 2 ^ 64) by reflexivity.
  pose proof (roundToSignificand_ge_pow2 (Z.abs v) 64 ltac:(lia) ltac:(lia))
    as Ha.
  destruct (2 ^ 1024 <=? _).
  - replace (v <? 0) with true by (symmetry; apply Z.ltb_lt; lia). reflexivity.
  - rewrite (proj2 (Z.sgn_neg_iff v)) by lia. cbn [Number.isInt64].
    assert (2 ^ 63 < 2 ^ 64) by reflexivity.
    apply andb_false_intro1. apply Z.leb_gt. lia.
Qed.

(** C9 (negative amounts), as amended.  The native branch makes no sign check:
    for a strictly negative amount with at most 9 fractional digits and a
    payer with a non-negative balance, the lamports are negative and the
    balance check passes.  When the lamports are not below [-2^63] the call
    returns a transaction after the two lookups, whose transfer instruction
    carries the number nearest to the lamports, which is the negative
    lamports value itself when it is not below [-2^53].  From [-2^64] on
    the lamports cannot be written as a signed 64-bit integer, and the call
    fails with the RangeError of [SystemProgram.transfer]. *)
Theorem negative_amount_accepted :
  forall find isOnCurve (connection : Connection) payer recipient amount options
         payerInfo recipientInfo,
    connection payer = Some payerInfo ->
    connection recipient = Some recipientInfo ->
    token options = None ->
    (BigNumber.toQ amount < 0)%Q ->
    BigNumber.decimalPlaces amount <= SOL_DECIMALS ->
    0 <= lamports payerInfo ->
    toLamports amount < 0
    /\ (- 2 ^ 63 <= toLamports amount ->
        run (createTransaction find isOnCurve connection payer recipient amount
               options)
          = (Fulfilled {| instructions :=
               addReferences (references options)
                 (SystemProgram_transferInstruction payer recipient
                    (BigNumber.toNumber (toLamports amount)))
               :: match memo options with
                  | Some text => [memoInstruction text]
                  | None => []
                  end |},
             [GetAccountInfo payer; GetAccountInfo recipient]))
    /\ (- 2 ^ 53 <= toLamports amount ->
        BigNumber.toNumber (toLamports amount) = Number.Num (toLamports amount))
    /\ (toLamports amount <= - 2 ^ 64 ->
        run (createTransaction find isOnCurve connection payer recipient amount
               options)
          = (Rejected RangeError,
             [GetAccountInfo payer; GetAccountInfo recipient])).
Proof.
  intros find isOnCurve connection payer recipient amount options payerInfo
    recipientInfo Hpayer Hrecipient Htoken Hneg Hprecision Hbalance.
  pose proof (toLamports_negative amount Hneg) as Hlamports.
  assert (Hrun := createTransaction_native find isOnCurve connection payer
                    recipient amount options payerInfo recipientInfo Hpayer
                    Hrecipient Htoken).
  cbv zeta in Hrun. apply Z.ltb_ge in Hprecision.
  rewrite Hprecision, (negative_not_gt _ _ Hlamports Hbalance) in Hrun.
  split; [exact Hlamports|]. split; [|split].
  - intro Hbound. rewrite Hrun, negative_isInt64 by lia. reflexivity.
  - intro Hbound. apply toNumber_exact. lia.
  - intro Hbound. rewrite Hrun, negative_not_isInt64 by exact Hbound.
    reflexivity.
Qed.

Lemma negative_amount_accepted_witness :
  toLamports (BigNumber.mk (-15) 1) = -1500000000
  /\ run (createTransaction Fixtures.derive Fixtures.onCurve
            (Fixtures.nativeLedger 1000)
            "payer"%string "recipient"%string (BigNumber.mk (-15) 1)
            Fixtures.plain)
     = (Fulfilled {| instructions :=
          [SystemProgram_transferInstruction "payer"%string "recipient"%string
             (Number.Num (-1500000000))] |},
        [GetAccountInfo "payer"%string; GetAccountInfo "recipient"%string]).
Proof.
  split; [reflexivity|].
  destruct (negative_amount_accepted Fixtures.derive Fixtures.onCurve
              (Fixtures.nativeLedger 1000)
              "payer"%string "recipient"%string (BigNumber.mk (-15) 1)
              Fixtures.plain (Fixtures.wallet 1000) (Fixtures.wallet 0)
              eq_refl eq_refl eq_refl eq_refl
              ltac:(vm_compute; discriminate) ltac:(vm_compute; discriminate))
    as (_ & Hrun & Hexact & _).
  rewrite Hrun, Hexact; [reflexivity | vm_compute; discriminate
                         | vm_compute; discriminate].
Defined.

(** The claim as stated fails in two ways.  For -9007199.254740993 SOL the
    lamports are -9007199254740993 and the instruction of the returned
    transaction carries -9007199254740992.  For -100000000000 SOL the lamports
    are [-10^20] and no transaction is returned: the call fails with a
    RangeError. *)
Lemma negative_amount_counterexample :
  BigNumber.decimalPlaces (BigNumber.mk (-9007199254740993) 9) <= SOL_DECIMALS
  /\ toLamports (BigNumber.mk (-9007199254740993) 9) = -9007199254740993
  /\ run (createTransaction Fixtures.derive Fixtures.onCurve
            (Fixtures.nativeLedger 0)
            "payer"%string "recipient"%string
            (BigNumber.mk (-9007199254740993) 9) Fixtures.plain)
     = (Fulfilled {| instructions :=
          [SystemProgram_transferInstruction "payer"%string "recipient"%string
             (Number.Num (-9007199254740992))] |},
        [GetAccountInfo "payer"%string; GetAccountInfo "recipient"%string])
  /\ Number.Num (-9007199254740992) <> Number.Num (-9007199254740993)
  /\ toLamports (BigNumber.mk (-100000000000) 0) = - 10 ^ 20
  /\ run (createTransaction Fixtures.derive Fixtures.onCurve
            (Fixtures.nativeLedger 0)
            "payer"%string "recipient"%string
            (BigNumber.mk (-100000000000) 0) Fixtures.plain)
     = (Rejected RangeError,
        [GetAccountInfo "payer"%string; GetAccountInfo "recipient"%string]).
Proof.
  repeat split; try reflexivity. discriminate.
Qed.

(** ** Further properties of the pipeline *)

(** X1 (payer and recipient).  The call fails with PAYER_NOT_FOUND exactly when
    the payer's account is absent, and then the payer's lookup is the only
    interaction; it fails with RECIPIENT_NOT_FOUND exactly when the payer's
    account exists and the recipient's is absent, and then the two lookups are
    the only interactions.  No later step reports either error. *)
Theorem parties_not_found_iff :
  forall find isOnCurve (connection : Connection) payer recipient amount options,
    (fst (run (createTransaction find isOnCurve connection payer recipient amount options))
       = Rejected (Error PAYER_NOT_FOUND)
     <-> connection payer = None)
    /\ (fst (run (createTransaction find isOnCurve connection payer recipient amount options))
          = Rejected (Error RECIPIENT_NOT_FOUND)
        <-> connection payer <> None /\ connection recipient = None)
    /\ (connection payer = None ->
        snd (run (createTransaction find isOnCurve connection payer recipient amount options))
          = [GetAccountInfo payer])
    /\ (connection payer <> None -> connection recipient = None ->
        snd (run (createTransaction find isOnCurve connection payer recipient amount options))
          = [GetAccountInfo payer; GetAccountInfo recipient]).
Proof.
  intros find isOnCurve connection payer recipient amount options.
  all_checks; cbn [fst snd];
    repeat split; intros; try discriminate; try reflexivity; try congruence;
    try tauto;
    try match goal with H : _ /\ _ |- _ => destruct H; congruence end.
Qed.




(** X3 (what a native transaction certifies).  When a call without a token
    returns a transaction, the payer and the recipient exist, the amount has at
    most 9 fractional digits, the number of lamports is not above the payer's
    balance, exactly the two lookups were made, and the transaction is the
    System Program transfer from payer (signer, writable) to recipient
    (writable) of that number of lamports, with the references appended,
    followed by the memo instruction if a memo was given. *)
Theorem native_success_certifies :
  forall find isOnCurve (connection : Connection) payer recipient amount options
         transaction tr,
    token options = None ->
    run (createTransaction find isOnCurve connection payer recipient amount options)
      = (Fulfilled transaction, tr) ->
    exists payerInfo,
      connection payer = Some payerInfo
      /\ connection recipient <> None
      /\ BigNumber.decimalPlaces amount <= SOL_DECIMALS
      /\ Number.gt (BigNumber.toNumber (toLamports amount)) (lamports payerInfo)
         = false
      /\ (Z.abs (toLamports amount) <= 2 ^ 53 ->
          toLamports amount <= lamports payerInfo)
      /\ tr = [GetAccountInfo payer; GetAccountInfo recipient]
      /\ instructions transaction
         = {| keys :=
                [{| pubkey := payer; isSigner := true; isWritable := true |};
                 {| pubkey := recipient; isSigner := false; isWritable := true |}]
                ++ match references options with
                   | Some keys_ => map referenceKey keys_
                   | None => []
                   end;
              programId := SystemProgram_programId;
              ixdata := SystemTransferData (BigNumber.toNumber (toLamports amount))
           |}
           :: match memo options with
              | Some text => [memoInstruction text]
              | None => []
              end.
Proof.
  intros find isOnCurve connection payer recipient amount options transaction tr Htoken.
  rewrite createTransaction_unfold, Htoken. cbv zeta.
  destruct (connection payer) as [payerInfo|] eqn:Hpayer; [|discriminate].
  destruct (connection recipient) as [recipientInfo|] eqn:Hrecipient;
    [|discriminate].
  rewrite nativeTransfer_unfold.
  destruct (SOL_DECIMALS <? _) eqn:Hprecision; [discriminate|].
  destruct (Number.gt _ _) eqn:Hgt; [discriminate|].
  destruct (Number.isInt64 _); [|discriminate].
  intro H. injection H as <- <-.
  exists payerInfo. apply Z.ltb_ge in Hprecision.
  repeat split; try assumption; try discriminate.
  - intro Hmagnitude. rewrite (toNumber_exact _ Hmagnitude) in Hgt.
    cbn [Number.gt] in Hgt. apply Z.ltb_ge in Hgt. exact Hgt.
  - destruct (references options) as [[|key others]|], (memo options);
      cbn; rewrite ?app_nil_r; reflexivity.
Qed.

Lemma native_success_certifies_witness :
  exists payerInfo,
    Fixtures.nativeLedger 1500000000 "payer"%string = Some payerInfo
    /\ 1500000000 <= lamports payerInfo.
Proof.
  destruct (native_success_certifies Fixtures.derive Fixtures.onCurve
              (Fixtures.nativeLedger 1500000000)
              "payer"%string "recipient"%string (BigNumber.mk 15 1) Fixtures.plain
              _ _ eq_refl eq_refl)
    as (payerInfo & Hpayer & _ & _ & _ & Hbalance & _).
  exists payerInfo. split; [exact Hpayer|].
  apply Hbalance. vm_compute. discriminate.
Defined.


(** X4 (no token transaction).  With a token the call never returns a
    transaction: whatever the ledger, the amount and the options, it ends with
    an error, at the balance check of line 113 at the latest. *)
Theorem token_call_never_returns :
  forall find isOnCurve (connection : Connection) payer recipient amount
         mintAddress referenceKeys text transaction,
    fst (run (createTransaction find isOnCurve connection payer recipient amount
                {| token := Some mintAddress; references := referenceKeys;
                   memo := text |}))
      <> Fulfilled transaction.
Proof.
  intros find isOnCurve connection payer recipient amount mintAddress
    referenceKeys text transaction.
  all_checks; cbn [fst]; discriminate.
Qed.

(** X5 (payer's token account).  In the token branch, once the mint is
    accepted and the precision check has passed, for a payer whose key is on
    the curve, a missing associated token account of the payer makes the call
    fail with PAYER_ATA_NOT_FOUND, whatever the size of the amount; the
    recipient's token account is neither derived nor looked up. *)
Theorem payer_ata_missing :
  forall find isOnCurve (connection : Connection) payer recipient amount options
         payerInfo recipientInfo mintAddress tokenInfo,
    connection payer = Some payerInfo ->
    connection recipient = Some recipientInfo ->
    token options = Some mintAddress ->
    connection mintAddress = Some tokenInfo ->
    owner tokenInfo = TOKEN_PROGRAM_ID ->
    Z.of_nat (List.length (data tokenInfo)) = MintLayout_span ->
    mint_isInitialized (MintLayout_decode (data tokenInfo)) <> 0 ->
    BigNumber.decimalPlaces amount
      <= mint_decimals (MintLayout_decode (data tokenInfo)) ->
    isOnCurve payer = true ->
    connection (find ASSOCIATED_TOKEN_PROGRAM_ID TOKEN_PROGRAM_ID mintAddress payer)
      = None ->
    run (createTransaction find isOnCurve connection payer recipient amount options)
      = (Rejected (Error PAYER_ATA_NOT_FOUND),
         [GetAccountInfo payer; GetAccountInfo recipient;
          GetAccountInfo mintAddress;
          GetAssociatedTokenAddress mintAddress payer;
          GetAccountInfo
            (find ASSOCIATED_TOKEN_PROGRAM_ID TOKEN_PROGRAM_ID mintAddress payer)]).
Proof.
  intros find isOnCurve connection payer recipient amount options payerInfo recipientInfo
    mintAddress tokenInfo Hpayer Hrecipient Htoken Hfound Howner Hlength Hinit
    Hprecision Hcurve Hmissing.
  rewrite (createTransaction_token find isOnCurve connection payer recipient amount
             options payerInfo recipientInfo Hpayer Hrecipient mintAddress Htoken).
  rewrite (tokenTransfer_valid_mint find isOnCurve connection payer recipient mintAddress
             amount tokenInfo Hfound Howner Hlength Hinit).
  cbv zeta. apply Z.ltb_ge in Hprecision. rewrite Hprecision, Hcurve, Hmissing.
  reflexivity.
Qed.

Lemma payer_ata_missing_witness :
  fst (run (createTransaction Fixtures.derive Fixtures.onCurve
              (fun address =>
                 if String.eqb address "stranger" then Some (Fixtures.wallet 1)
                 else Fixtures.tokenLedger (Some Fixtures.sixDecimals) true address)
              "stranger"%string "recipient"%string
              (BigNumber.mk 10 0) Fixtures.withToken))
    = Rejected (Error PAYER_ATA_NOT_FOUND).
Proof.
  rewrite (payer_ata_missing Fixtures.derive Fixtures.onCurve
             (fun address =>
                if String.eqb address "stranger" then Some (Fixtures.wallet 1)
                else Fixtures.tokenLedger (Some Fixtures.sixDecimals) true address)
             "stranger"%string "recipient"%string (BigNumber.mk 10 0)
             Fixtures.withToken (Fixtures.wallet 1) (Fixtures.wallet 0)
             "mint"%string Fixtures.sixDecimals
             eq_refl eq_refl eq_refl eq_refl eq_refl eq_refl
             ltac:(vm_compute; discriminate) ltac:(vm_compute; discriminate)
             eq_refl eq_refl).
  reflexivity.
Defined.


(** X10 (payer off the curve).  In the token branch, once the mint is accepted
    and the precision check has passed, a payer whose key is not on the curve
    is refused by the derivation of its associated token address: the call
    fails with "Owner cannot sign" after four interactions, and the payer's
    token account is not looked up. *)
Theorem off_curve_payer_refused :
  forall find isOnCurve (connection : Connection) payer recipient amount options
         payerInfo recipientInfo mintAddress tokenInfo,
    connection payer = Some payerInfo ->
    connection recipient = Some recipientInfo ->
    token options = Some mintAddress ->
    connection mintAddress = Some tokenInfo ->
    owner tokenInfo = TOKEN_PROGRAM_ID ->
    Z.of_nat (List.length (data tokenInfo)) = MintLayout_span ->
    mint_isInitialized (MintLayout_decode (data tokenInfo)) <> 0 ->
    BigNumber.decimalPlaces amount
      <= mint_decimals (MintLayout_decode (data tokenInfo)) ->
    isOnCurve payer = false ->
    run (createTransaction find isOnCurve connection payer recipient amount options)
      = (Rejected (OwnerCannotSign payer),
         [GetAccountInfo payer; GetAccountInfo recipient;
          GetAccountInfo mintAddress;
          GetAssociatedTokenAddress mintAddress payer]).
Proof.
  intros find isOnCurve connection payer recipient amount options payerInfo
    recipientInfo mintAddress tokenInfo Hpayer Hrecipient Htoken Hfound Howner
    Hlength Hinit Hprecision Hcurve.
  rewrite (createTransaction_token find isOnCurve connection payer recipient
             amount options payerInfo recipientInfo Hpayer Hrecipient
             mintAddress Htoken).
  rewrite (tokenTransfer_valid_mint find isOnCurve connection payer recipient
             mintAddress amount tokenInfo Hfound Howner Hlength Hinit).
  cbv zeta. apply Z.ltb_ge in Hprecision. rewrite Hprecision, Hcurve.
  reflexivity.
Qed.

Lemma off_curve_payer_refused_witness :
  run (createTransaction Fixtures.derive Fixtures.onCurve
         (fun address =>
            if String.eqb address "vault" then Some (Fixtures.wallet 1)
            else Fixtures.tokenLedger (Some Fixtures.sixDecimals) true address)
         "vault"%string "recipient"%string
         (BigNumber.mk 10 0) Fixtures.withToken)
    = (Rejected (OwnerCannotSign "vault"),
       [GetAccountInfo "vault"%string; GetAccountInfo "recipient"%string;
        GetAccountInfo "mint"%string;
        GetAssociatedTokenAddress "mint"%string "vault"%string]).
Proof.
  apply (off_curve_payer_refused Fixtures.derive Fixtures.onCurve
           (fun address =>
              if String.eqb address "vault" then Some (Fixtures.wallet 1)
              else Fixtures.tokenLedger (Some Fixtures.sixDecimals) true address)
           "vault"%string "recipient"%string (BigNumber.mk 10 0)
           Fixtures.withToken (Fixtures.wallet 1) (Fixtures.wallet 0)
           "mint"%string Fixtures.sixDecimals
           eq_refl eq_refl eq_refl eq_refl eq_refl eq_refl
           ltac:(vm_compute; discriminate) ltac:(vm_compute; discriminate)
           eq_refl).
Defined.

(** X6 (what the native branch reads).  Without a token the outcome and the
    trace depend on the ledger only through the existence of the payer's and
    the recipient's accounts and the payer's lamports: the recipient's account
    is not inspected (it may be owned by any program), nor are the payer's
    owner and data, and no address is derived. *)
Theorem native_reads_only_the_balance :
  forall find1 find2 isOnCurve1 isOnCurve2 (connection1 connection2 : Connection)
         payer recipient amount options,
    token options = None ->
    option_map lamports (connection1 payer)
      = option_map lamports (connection2 payer) ->
    (connection1 recipient = None <-> connection2 recipient = None) ->
    run (createTransaction find1 isOnCurve1 connection1 payer recipient amount
           options)
    = run (createTransaction find2 isOnCurve2 connection2 payer recipient amount
             options).
Proof.
  intros find1 find2 isOnCurve1 isOnCurve2 connection1 connection2 payer recipient
    amount options
    Htoken Hpayer Hrecipient.
  rewrite !createTransaction_unfold, Htoken. cbv zeta.
  destruct (connection1 payer) as [payerInfo1|],
           (connection2 payer) as [payerInfo2|];
    cbn [option_map] in Hpayer; try discriminate; [|reflexivity].
  injection Hpayer as Hlamports.
  destruct (connection1 recipient) as [recipientInfo1|],
           (connection2 recipient) as [recipientInfo2|];
    try reflexivity.
  - rewrite !nativeTransfer_unfold, Hlamports. reflexivity.
  - destruct Hrecipient as [_ H]. discriminate (H eq_refl).
  - destruct Hrecipient as [H _]. discriminate (H eq_refl).
Qed.

(** A recipient that is a token mint is accepted like any other account. *)
Lemma native_reads_only_the_balance_witness :
  run (createTransaction Fixtures.derive Fixtures.onCurve (Fixtures.nativeLedger 1500000000)
         "payer"%string "recipient"%string (BigNumber.mk 15 1) Fixtures.plain)
  = run (createTransaction Fixtures.derive Fixtures.onCurve
           (fun address =>
              if String.eqb address "recipient" then Some Fixtures.sixDecimals
              else Fixtures.nativeLedger 1500000000 address)
           "payer"%string "recipient"%string (BigNumber.mk 15 1) Fixtures.plain).
Proof.
  apply native_reads_only_the_balance.
  - reflexivity.
  - reflexivity.
  - split; discriminate.
Defined.

(** X7 (what the token branch reads).  With a token the outcome and the trace
    depend on the ledger only through the existence of the payer's and the
    recipient's accounts and the accounts at the mint address and at the two
    associated token addresses: the payer's lamports and the owners of the
    payer's and recipient's accounts play no part. *)
Theorem token_reads_three_accounts :
  forall find isOnCurve (connection1 connection2 : Connection)
         payer recipient amount options mintAddress,
    token options = Some mintAddress ->
    (connection1 payer = None <-> connection2 payer = None) ->
    (connection1 recipient = None <-> connection2 recipient = None) ->
    connection1 mintAddress = connection2 mintAddress ->
    connection1 (find ASSOCIATED_TOKEN_PROGRAM_ID TOKEN_PROGRAM_ID mintAddress payer)
      = connection2 (find ASSOCIATED_TOKEN_PROGRAM_ID TOKEN_PROGRAM_ID
                       mintAddress payer) ->
    connection1 (find ASSOCIATED_TOKEN_PROGRAM_ID TOKEN_PROGRAM_ID mintAddress
                   recipient)
      = connection2 (find ASSOCIATED_TOKEN_PROGRAM_ID TOKEN_PROGRAM_ID
                       mintAddress recipient) ->
    run (createTransaction find isOnCurve connection1 payer recipient amount options)
    = run (createTransaction find isOnCurve connection2 payer recipient amount options).
Proof.
  intros find isOnCurve connection1 connection2 payer recipient amount options mintAddress
    Htoken Hpayer Hrecipient Hmint Hpata Hrata.
  rewrite !createTransaction_unfold, Htoken. cbv zeta.
  destruct (connection1 payer) as [payerInfo1|],
           (connection2 payer) as [payerInfo2|]; try reflexivity.
  2:{ destruct Hpayer as [_ H]. discriminate (H eq_refl). }
  2:{ destruct Hpayer as [H _]. discriminate (H eq_refl). }
  destruct (connection1 recipient) as [recipientInfo1|],
           (connection2 recipient) as [recipientInfo2|]; try reflexivity.
  2:{ destruct Hrecipient as [_ H]. discriminate (H eq_refl). }
  2:{ destruct Hrecipient as [H _]. discriminate (H eq_refl). }
  rewrite !tokenTransfer_unfold. cbv zeta.
  rewrite Hmint, Hpata, Hrata. reflexivity.
Qed.

(** A payer without lamports gets the same outcome. *)
Lemma token_reads_three_accounts_witness :
  run (createTransaction Fixtures.derive Fixtures.onCurve
         (Fixtures.tokenLedger (Some Fixtures.sixDecimals) true)
         "payer"%string "recipient"%string (BigNumber.mk 10 0)
         Fixtures.withToken)
  = run (createTransaction Fixtures.derive Fixtures.onCurve
           (fun address =>
              if String.eqb address "payer" then Some (Fixtures.wallet 0)
              else Fixtures.tokenLedger (Some Fixtures.sixDecimals) true address)
           "payer"%string "recipient"%string (BigNumber.mk 10 0)
           Fixtures.withToken).
Proof.
  apply (token_reads_three_accounts Fixtures.derive Fixtures.onCurve
           (Fixtures.tokenLedger (Some Fixtures.sixDecimals) true)
           (fun address =>
              if String.eqb address "payer" then Some (Fixtures.wallet 0)
              else Fixtures.tokenLedger (Some Fixtures.sixDecimals) true address)
           "payer"%string "recipient"%string (BigNumber.mk 10 0)
           Fixtures.withToken "mint"%string).
  - reflexivity.
  - split; discriminate.
  - split; discriminate.
  - reflexivity.
  - reflexivity.
  - reflexivity.
Defined.

(** X8 (order of the interactions).  The interactions of a call are always an
    initial part, of length at least one, of a fixed sequence: payer lookup
    and recipient lookup, then with a token the mint lookup, the derivation
    and lookup of the payer's token account and the derivation and lookup of
    the recipient's.  A call that returns a transaction has made all of them;
    a call without a token never looks up a third account. *)
Theorem interactions_in_order :
  forall find isOnCurve (connection : Connection) payer recipient amount options,
    let planned :=
      match token options with
      | None => [GetAccountInfo payer; GetAccountInfo recipient]
      | Some mintAddress =>
        [GetAccountInfo payer; GetAccountInfo recipient;
         GetAccountInfo mintAddress;
         GetAssociatedTokenAddress mintAddress payer;
         GetAccountInfo
           (find ASSOCIATED_TOKEN_PROGRAM_ID TOKEN_PROGRAM_ID mintAddress payer);
         GetAssociatedTokenAddress mintAddress recipient;
         GetAccountInfo
           (find ASSOCIATED_TOKEN_PROGRAM_ID TOKEN_PROGRAM_ID mintAddress recipient)]
      end in
    let outcome :=
      run (createTransaction find isOnCurve connection payer recipient amount options) in
    (exists n, (1 <= n)%nat /\ snd outcome = firstn n planned)
    /\ (forall transaction,
          fst outcome = Fulfilled transaction -> snd outcome = planned).
Proof.
  intros find isOnCurve connection payer recipient amount options planned outcome.
  subst planned outcome.
  all_checks; cbn [fst snd app]; (split; [|intros transaction H;
                                            first [discriminate H | reflexivity]]);
    first [ exists 1%nat; split; [lia | reflexivity]
          | exists 2%nat; split; [lia | reflexivity]
          | exists 3%nat; split; [lia | reflexivity]
          | exists 4%nat; split; [lia | reflexivity]
          | exists 5%nat; split; [lia | reflexivity]
          | exists 7%nat; split; [lia | reflexivity] ].
Qed.

(** ** Magnitudes *)

(** Rounding to a double never takes an integer from [2^53] on below [2^53]. *)
Lemma roundToSignificand_large (n : Z) :
  2 ^ 53 <= n -> 2 ^ 53 <= Number.roundToSignificand n.
Proof.
  intro Hn. unfold Number.roundToSignificand.
  destruct (n <? 2 ^ 53) eqn:E; [exact Hn|]. cbv zeta.
  assert (Hpos : 0 < n).
  { apply Z.lt_le_trans with (2 ^ 53); [reflexivity | exact Hn]. }
  assert (Hlog : 53 <= Z.log2 n) by (apply Z.log2_le_pow2; assumption).
  destruct (Z.log2_spec n Hpos) as [Hlow _].
  set (k := Z.log2 n - 52) in *.
  assert (Hk : 0 < 2 ^ k) by (apply Z.pow_pos_nonneg; lia).
  assert (Hsplit : 2 ^ Z.log2 n = 2 ^ 52 * 2 ^ k).
  { rewrite <- Z.pow_add_r by lia. f_equal. lia. }
  assert (Hq : 2 ^ 52 <= n / 2 ^ k).
  { apply Z.div_le_lower_bound; [exact Hk|]. lia. }
  assert (Hfloor : 2 ^ 53 <= 2 ^ 52 * 2 ^ k).
  { rewrite <- Hsplit. apply Z.pow_le_mono_r; lia. }
  assert (Hgoal : forall q', n / 2 ^ k <= q' -> 2 ^ 53 <= q' * 2 ^ k).
  { intros q' Hq'. apply Z.le_trans with (2 ^ 52 * 2 ^ k); [exact Hfloor|].
    apply Z.mul_le_mono_nonneg_r; lia. }
  destruct (n mod 2 ^ k <? 2 ^ (k - 1));
    [|destruct (2 ^ (k - 1) <? n mod 2 ^ k); [|destruct (Z.even (n / 2 ^ k))]];
    apply Hgoal; first [apply Z.le_refl | apply Z.le_succ_diag_r].
Qed.

(** Against a balance below [2^53], the number of lamports is above the
    balance exactly when the lamports are. *)
Lemma gt_exact_for_small_balance (v balance : Z) :
  0 <= balance < 2 ^ 53 ->
  Number.gt (BigNumber.toNumber v) balance = (balance <? v).
Proof.
  intros [Hlow Hhigh].
  destruct (Z_lt_le_dec v 0) as [Hneg|Hnonneg].
  - rewrite (negative_not_gt v balance Hneg Hlow). symmetry. apply Z.ltb_ge. lia.
  - destruct (Z_le_gt_dec v (2 ^ 53)) as [Hsmall|Hlarge].
    + rewrite toNumber_exact by lia. reflexivity.
    + unfold BigNumber.toNumber, Number.ofInteger.
      rewrite Z.abs_eq by exact Hnonneg.
      pose proof (roundToSignificand_large v ltac:(lia)) as Hround.
      replace (v <? 0) with false by (symmetry; apply Z.ltb_ge; exact Hnonneg).
      replace (balance <? v) with true by (symmetry; apply Z.ltb_lt; lia).
      destruct (2 ^ 1024 <=? _); [reflexivity|].
      cbn [Number.gt]. apply Z.ltb_lt.
      rewrite (proj2 (Z.sgn_pos_iff v)) by lia. lia.
Qed.

(** X9 (balances below 2^53 lamports).  When the payer's balance is below
    [2^53] lamports, the native branch fails with PAYER_INSUFFICIENT_FUNDS
    exactly when the lamports requested exceed the balance, for amounts of any
    size and sign: the conversion to a number never moves an amount across
    such a balance. *)
Theorem native_comparison_exact_for_small_balance :
  forall find isOnCurve (connection : Connection) payer recipient amount options
         payerInfo recipientInfo,
    connection payer = Some payerInfo ->
    connection recipient = Some recipientInfo ->
    token options = None ->
    BigNumber.decimalPlaces amount <= SOL_DECIMALS ->
    0 <= lamports payerInfo < 2 ^ 53 ->
    (fst (run (createTransaction find isOnCurve connection payer recipient amount options))
       = Rejected (Error PAYER_INSUFFICIENT_FUNDS)
     <-> lamports payerInfo < toLamports amount).
Proof.
  intros find isOnCurve connection payer recipient amount options payerInfo recipientInfo
    Hpayer Hrecipient Htoken Hprecision Hbalance.
  rewrite (createTransaction_native find isOnCurve connection payer recipient amount
             options payerInfo recipientInfo Hpayer Hrecipient Htoken).
  cbv zeta. apply Z.ltb_ge in Hprecision. rewrite Hprecision.
  rewrite (gt_exact_for_small_balance _ _ Hbalance).
  destruct (lamports payerInfo <? toLamports amount) eqn:E; cbn [fst].
  - apply Z.ltb_lt in E. split; [intros _; exact E | reflexivity].
  - apply Z.ltb_ge in E.
    destruct (Number.isInt64 _); cbn [fst]; (split; [discriminate | lia]).
Qed.

(** 2^53 + 1 lamports against a balance of 1000 lamports. *)
Lemma native_comparison_exact_for_small_balance_witness :
  fst (run (createTransaction Fixtures.derive Fixtures.onCurve (Fixtures.nativeLedger 1000)
              "payer"%string "recipient"%string
              (BigNumber.mk 9007199254740993 9) Fixtures.plain))
    = Rejected (Error PAYER_INSUFFICIENT_FUNDS)
  <-> 1000 < 9007199254740993.
Proof.
  apply (native_comparison_exact_for_small_balance Fixtures.derive Fixtures.onCurve
           (Fixtures.nativeLedger 1000) "payer"%string "recipient"%string
           (BigNumber.mk 9007199254740993 9) Fixtures.plain
           (Fixtures.wallet 1000) (Fixtures.wallet 0) eq_refl eq_refl eq_refl).
  - vm_compute. discriminate.
  - split; [vm_compute; discriminate | reflexivity].
Defined.


(** ** Representation of the amount *)

Lemma decimalPlaces_trailing_zero (m : Z) (k : nat) :
  BigNumber.decimalPlaces (BigNumber.mk (10 * m) (S k))
  = BigNumber.decimalPlaces (BigNumber.mk m k).
Proof.
  unfold BigNumber.decimalPlaces.
  cbn [BigNumber.scale BigNumber.unscaled BigNumber.significantPlaces].
  rewrite (Z.mul_comm 10 m), Z_mod_mult, Z.eqb_refl, Z_div_mult by lia.
  reflexivity.
Qed.

Lemma toTokens_trailing_zero (m : Z) (k : nat) (precision : Z) :
  toTokens (BigNumber.mk (10 * m) (S k)) precision
  = toTokens (BigNumber.mk m k) precision.
Proof.
  rewrite !toTokens_eq. cbn [BigNumber.scale BigNumber.unscaled].
  rewrite Nat2Z.inj_succ, Z.pow_succ_r by lia.
  rewrite <- Z.mul_assoc.
  apply Z.div_mul_cancel_l; [|lia].
  apply Z.pow_nonzero; lia.
Qed.

(** X11 (trailing zeros).  Writing the amount with one more fractional digit
    that is a zero (1.50 for 1.5) changes nothing: the precision check counts
    significant fractional digits only, and the converted amount is the same,
    so the outcome and the trace are the same in both branches. *)
Theorem trailing_zero_immaterial :
  forall find isOnCurve (connection : Connection) payer recipient options (m : Z) (k : nat),
    run (createTransaction find isOnCurve connection payer recipient
           (BigNumber.mk (10 * m) (S k)) options)
    = run (createTransaction find isOnCurve connection payer recipient
             (BigNumber.mk m k) options).
Proof.
  intros find isOnCurve connection payer recipient options m k.
  rewrite !createTransaction_unfold. cbv zeta.
  destruct (connection payer) as [payerInfo|]; [|reflexivity].
  destruct (connection recipient) as [recipientInfo|]; [|reflexivity].
  destruct (token options) as [mintAddress|].
  - rewrite !tokenTransfer_unfold. cbv zeta.
    rewrite decimalPlaces_trailing_zero.
    destruct (connection mintAddress) as [tokenInfo|]; [|reflexivity].
    rewrite toTokens_trailing_zero. reflexivity.
  - rewrite !nativeTransfer_unfold.
    rewrite decimalPlaces_trailing_zero, !toLamports_eq, toTokens_trailing_zero.
    reflexivity.
Qed.

Lemma mint_decimals_nonneg (b : Buffer) : 0 <= mint_decimals (MintLayout_decode b).
Proof. cbn [MintLayout_decode mint_decimals]. apply N2Z.is_nonneg. Qed.

(** X12 (whole amounts).  An amount without fractional digits never fails the
    precision check: the call does not fail with AMOUNT_INVALID_DECIMALS,
    whatever the mint's decimals are. *)
Theorem whole_amount_passes_precision :
  forall find isOnCurve (connection : Connection) payer recipient amount options,
    BigNumber.decimalPlaces amount = 0 ->
    fst (run (createTransaction find isOnCurve connection payer recipient amount options))
      <> Rejected (Error AMOUNT_INVALID_DECIMALS).
Proof.
  intros find isOnCurve connection payer recipient amount options Hwhole.
  all_checks; cbn [fst]; try discriminate; intros _;
    match goal with
    | H : (_ <? BigNumber.decimalPlaces amount) = true |- _ =>
      rewrite Hwhole in H; apply Z.ltb_lt in H
    end;
    match goal with
    | H : mint_decimals (MintLayout_decode ?b) < 0 |- _ =>
      pose proof (mint_decimals_nonneg b); lia
    | H : SOL_DECIMALS < 0 |- _ => unfold SOL_DECIMALS in H; lia
    end.
Qed.

Lemma whole_amount_passes_precision_witness :
  fst (run (createTransaction Fixtures.derive Fixtures.onCurve
              (Fixtures.tokenLedger (Some (Fixtures.mintAccount x00 x01)) true)
              "payer"%string "recipient"%string (BigNumber.mk 7 0)
              Fixtures.withToken))
    <> Rejected (Error AMOUNT_INVALID_DECIMALS)
  /\ BigNumber.decimalPlaces (BigNumber.mk 7 0) = 0.
Proof.
  split; [|reflexivity].
  apply (whole_amount_passes_precision Fixtures.derive Fixtures.onCurve
           (Fixtures.tokenLedger (Some (Fixtures.mintAccount x00 x01)) true)
           "payer"%string "recipient"%string (BigNumber.mk 7 0)
           Fixtures.withToken eq_refl).
Defined.


(** ** Memo bytes *)

(** X13 (ASCII memos).  For a memo whose characters are all below U+0080, the
    data of the memo instruction has one byte per character, each the
    character's code. *)
Theorem ascii_memo_bytes :
  forall text : JSString,
    Forall (fun unit_ => (unit_ < 128)%N) text ->
    ixdata (memoInstruction text) = Bytes (map byteOf text)
    /\ List.length (utf8 text) = List.length text.
Proof.
  intros text Hascii.
  assert (Hutf8 : utf8 text = map byteOf text).
  { induction Hascii as [|unit_ rest Hunit _ IH]; [reflexivity|].
    cbn [utf8 map]. apply N.ltb_lt in Hunit. rewrite Hunit, IH. reflexivity. }
  split.
  - unfold memoInstruction. cbn [ixdata]. rewrite Hutf8. reflexivity.
  - rewrite Hutf8. apply length_map.
Qed.

Lemma ascii_memo_bytes_witness :
  ixdata (memoInstruction [79; 75]%N) = Bytes [x4f; x4b].
Proof.
  apply (proj1 (ascii_memo_bytes [79; 75]%N
                  ltac:(repeat constructor))).
Defined.


(** ** Range of a native transfer *)

Lemma addReferences_ixdata (referenceKeys : option (list PublicKey))
    (instruction : TransactionInstruction) :
  ixdata (addReferences referenceKeys instruction) = ixdata instruction.
Proof. destruct referenceKeys as [[|key others]|]; reflexivity. Qed.


(** X14 (range of a native transfer).  The first instruction of a transaction
    returned without a token carries a number of lamports that is an integer
    of the signed 64-bit range and is not above the payer's balance. *)
Theorem native_transfer_in_range :
  forall find isOnCurve (connection : Connection) payer recipient amount options
         transaction,
    token options = None ->
    fst (run (createTransaction find isOnCurve connection payer recipient amount
                options))
      = Fulfilled transaction ->
    exists transfer rest lamports_ payerInfo,
      instructions transaction = transfer :: rest
      /\ ixdata transfer = SystemTransferData (Number.Num lamports_)
      /\ - 2 ^ 63 <= lamports_ < 2 ^ 63
      /\ connection payer = Some payerInfo
      /\ lamports_ <= lamports payerInfo.
Proof.
  intros find isOnCurve connection payer recipient amount options transaction
    Htoken.
  rewrite createTransaction_unfold, Htoken. cbv zeta.
  destruct (connection payer) as [payerInfo|]; [|discriminate].
  destruct (connection recipient) as [recipientInfo|]; [|discriminate].
  rewrite nativeTransfer_unfold.
  destruct (SOL_DECIMALS <? _); [discriminate|].
  destruct (Number.gt _ _) eqn:Hgt; [discriminate|].
  destruct (Number.isInt64 _) eqn:Hrange; [|discriminate].
  destruct (BigNumber.toNumber (toLamports amount)) as [lamports_| |];
    cbn [Number.isInt64] in Hrange; try discriminate Hrange.
  cbn [Number.gt] in Hgt. apply Z.ltb_ge in Hgt.
  apply andb_prop in Hrange. destruct Hrange as [Hlow Hhigh].
  apply Z.leb_le in Hlow. apply Z.ltb_lt in Hhigh.
  cbn [fst]. intro H. injection H as <-.
  exists (addReferences (references options)
            (SystemProgram_transferInstruction payer recipient
               (Number.Num lamports_))).
  destruct (memo options) as [text|];
    [exists [memoInstruction text] | exists []];
    exists lamports_, payerInfo;
    (split; [reflexivity|]); rewrite addReferences_ixdata;
    repeat split; assumption || reflexivity.
Qed.

Lemma native_transfer_in_range_witness :
  exists transfer rest lamports_ payerInfo,
    [SystemProgram_transferInstruction "payer"%string "recipient"%string
       (Number.Num 1500000000)] = transfer :: rest
    /\ ixdata transfer = SystemTransferData (Number.Num lamports_)
    /\ - 2 ^ 63 <= lamports_ < 2 ^ 63
    /\ Fixtures.nativeLedger 1500000000 "payer"%string = Some payerInfo
    /\ lamports_ <= lamports payerInfo.
Proof.
  exact (native_transfer_in_range Fixtures.derive Fixtures.onCurve
           (Fixtures.nativeLedger 1500000000)
           "payer"%string "recipient"%string (BigNumber.mk 15 1) Fixtures.plain
           {| instructions :=
                [SystemProgram_transferInstruction "payer"%string
                   "recipient"%string (Number.Num 1500000000)] |}
           eq_refl eq_refl).
Defined.
